(** * QUIC packets of iocore/net/quic/QUICPacket.cc

    A shallow embedding of the packet headers (long and short form, parsed
    from wire bytes or built from fields), of the packet that binds a header
    to its payload, of the packet factory and of the packet number generator,
    followed by the properties proved about them. *)

From Stdlib Require Import ZArith List Bool Lia.
Import ListNotations.
Open Scope Z_scope.

(** ** Machine integers

    The C++ unsigned types are integers with their wrap-around written out. *)

Definition wrap (bits v : Z) : Z := v mod 2 ^ bits.

Definition uint8 (v : Z) : Z := wrap 8 v.
Definition uint16 (v : Z) : Z := wrap 16 v.
Definition uint32 (v : Z) : Z := wrap 32 v.
Definition uint64 (v : Z) : Z := wrap 64 v.
Definition size_t (v : Z) : Z := wrap 64 v.

(** ** Outcomes of a call

    A call returns, or the process stops: on a failed assertion, on a read
    outside the bytes a pointer refers to, or through a null pointer. *)

Inductive fault : Type :=
| AssertionFailed
| OutOfBounds
| NullPointer.

Inductive result (A : Type) : Type :=
| Ok (a : A)
| Fault (f : fault).

Arguments Ok {A} a.
Arguments Fault {A} f.

Definition bind {A B : Type} (m : result A) (k : A -> result B) : result B :=
  match m with
  | Ok a => k a
  | Fault f => Fault f
  end.

Declare Scope result_scope.
Delimit Scope result_scope with result.
Notation "x <- m ;; k" := (bind m (fun x => k))
  (at level 61, m at next level, right associativity) : result_scope.
Notation "m ;; k" := (bind m (fun _ => k))
  (at level 61, right associativity) : result_scope.
Open Scope result_scope.

(** ** What the included headers declare

    QUICPacket.cc sees these through ts/ink_assert.h and QUICTypes.h, which
    are not among the sources at hand; they are taken as parameters.
    - [DEBUG]: whether the build defines DEBUG, which decides what
      [ink_assert] does;
    - [QUICPacketType_first]: the value of the first enumerator of
      QUICPacketType, the others following it one by one;
    - [QUIC_SUPPORTED_VERSIONS]: the table of supported versions. *)

Class Headers : Type := {
  DEBUG : bool;
  QUICPacketType_first : Z;
  QUIC_SUPPORTED_VERSIONS : list Z
}.

(** Modelled from the spec: ink_assert (ts/ink_assert.h) aborts in a debug
    build and evaluates its argument to no effect in a release build. *)
Definition ink_assert `{Headers} (e : bool) : result unit :=
  if DEBUG && negb e then Fault AssertionFailed else Ok tt.

(** Modelled from the spec: ink_release_assert (ts/ink_assert.h) is checked
    in every build. *)
Definition ink_release_assert (e : bool) : result unit :=
  if e then Ok tt else Fault AssertionFailed.

(** ** Bytes and buffers *)

Definition bytes : Type := list Z.

Definition byte_at (buf : bytes) (i : nat) : result Z :=
  match nth_error buf i with
  | Some b => Ok b
  | None => Fault OutOfBounds
  end.

(** [memcpy dst src n], as the [n] bytes it copies out of [src]. *)
Definition memcpy (src : bytes) (n : Z) : result bytes :=
  if n <=? Z.of_nat (length src) then Ok (firstn (Z.to_nat n) src)
  else Fault OutOfBounds.

(** ** The enumerations of QUICTypes.h *)

Definition QUICConnectionId : Type := Z.
Definition QUICPacketNumber : Type := Z.
Definition QUICVersion : Type := Z.

(** Modelled from the spec: the packet types, in the order the spec lists
    them. An enum class over int: a value is an int, ten of them named. *)
Module QUICPacketType.
Definition t : Type := Z.
Definition VERSION_NEGOTIATION `{Headers} : t := QUICPacketType_first.
Definition CLIENT_INITIAL `{Headers} : t := QUICPacketType_first + 1.
Definition SERVER_STATELESS_RETRY `{Headers} : t := QUICPacketType_first + 2.
Definition SERVER_CLEARTEXT `{Headers} : t := QUICPacketType_first + 3.
Definition CLIENT_CLEARTEXT `{Headers} : t := QUICPacketType_first + 4.
Definition ZERO_RTT_PROTECTED `{Headers} : t := QUICPacketType_first + 5.
Definition ONE_RTT_PROTECTED_KEY_PHASE_0 `{Headers} : t := QUICPacketType_first + 6.
Definition ONE_RTT_PROTECTED_KEY_PHASE_1 `{Headers} : t := QUICPacketType_first + 7.
Definition STATELESS_RESET `{Headers} : t := QUICPacketType_first + 8.
Definition UNINITIALIZED `{Headers} : t := QUICPacketType_first + 9.

(** The values that name a packet type. *)
Definition named `{Headers} (v : t) : Prop :=
  VERSION_NEGOTIATION <= v <= UNINITIALIZED.
End QUICPacketType.

(** Modelled from the spec: the width selector of a short header, 0b01 for a
    packet number of one byte, 0b10 for two bytes, 0b11 for four. *)
Module QUICPacketShortHeaderType.
Definition t : Type := Z.
Definition ONE : t := 1.
Definition TWO : t := 2.
Definition THREE : t := 3.
Definition UNINITIALIZED : t := 4.
End QUICPacketShortHeaderType.

Inductive QUICKeyPhase : Type :=
| PHASE_0
| PHASE_1
| PHASE_UNINITIALIZED.

(** ** Field codec primitives *)

Module QUICTypeUtil.

(** Modelled from the spec: hasLongHeader (QUICTypes.cc) inspects the high
  bit of the first byte. *)
Definition hasLongHeader (buf : bytes) : result bool :=
  b0 <- byte_at buf 0 ;;
  Ok (negb (Z.land b0 0x80 =? 0)).

(** Modelled from the spec: the integer fields are written big-endian,
  truncated to the [n] low bytes of the value. *)
Fixpoint write_uint_as_nbytes (value : Z) (n : nat) : bytes :=
  match n with
  | O => []
  | S k => Z.land (Z.shiftr value (8 * Z.of_nat k)) 0xFF
           :: write_uint_as_nbytes value k
  end.

Definition be_step (acc b : Z) : Z := acc * 256 + b.

(** Modelled from the spec: the [n] bytes at offset [off], read big-endian. *)
Definition read_nbytes_as_uint (buf : bytes) (off n : nat) : result Z :=
  let field := firstn n (skipn off buf) in
  if (length field =? n)%nat then Ok (fold_left be_step field 0)
  else Fault OutOfBounds.

Definition read_QUICConnectionId (buf : bytes) (off : nat) (n : nat)
  : result QUICConnectionId := read_nbytes_as_uint buf off n.

Definition read_QUICPacketNumber (buf : bytes) (off : nat) (n : nat)
  : result QUICPacketNumber := read_nbytes_as_uint buf off n.

Definition read_QUICVersion (buf : bytes) (off : nat) : result QUICVersion :=
  read_nbytes_as_uint buf off 4.

Definition write_QUICConnectionId (connection_id : QUICConnectionId) (n : nat)
  : bytes := write_uint_as_nbytes connection_id n.

Definition write_QUICPacketNumber (packet_number : QUICPacketNumber) (n : nat)
  : bytes := write_uint_as_nbytes packet_number n.

Definition write_QUICVersion (version : QUICVersion) : bytes :=
  write_uint_as_nbytes version 4.

End QUICTypeUtil.

(** ** Constants of QUICPacket.cc *)

Definition OFFSET_CONNECTION_ID : nat := 1.
Definition OFFSET_PACKET_NUMBER : nat := 9.
Definition OFFSET_VERSION : nat := 13.
Definition OFFSET_PAYLOAD : nat := 17.
Definition LONGHEADER_LENGTH : Z := 17.
Definition FNV1A_HASH_LEN : Z := 8.

(** ** Packet headers *)

(** The members of QUICPacketHeader. [_buf] is the wire buffer a parsed
    header borrows, null ([None]) in a built header. *)
Record QUICPacketHeaderFields : Type := {
  _buf : option bytes;
  _payload : bytes;
  _type : QUICPacketType.t;
  _key_phase : QUICKeyPhase;
  _connection_id : QUICConnectionId;
  _packet_number : QUICPacketNumber;
  _version : QUICVersion;
  _payload_len : Z;
  _has_key_phase : bool;
  _has_connection_id : bool;
  _has_version : bool
}.

(** Modelled from the spec: the member initialisers of QUICPacket.h, every
    field unset until a constructor assigns it. *)
Definition QUICPacketHeaderFields_default `{Headers} : QUICPacketHeaderFields :=
  {| _buf := None;
     _payload := [];
     _type := QUICPacketType.UNINITIALIZED;
     _key_phase := PHASE_UNINITIALIZED;
     _connection_id := 0;
     _packet_number := 0;
     _version := 0;
     _payload_len := 0;
     _has_key_phase := false;
     _has_connection_id := false;
     _has_version := false |}.

(** The two header classes; a short header also holds the width selector
    of its packet number. *)
Inductive QUICPacketHeader : Type :=
| LongHeader (f : QUICPacketHeaderFields)
| ShortHeader (f : QUICPacketHeaderFields)
              (_packet_number_type : QUICPacketShortHeaderType.t).

Module QUICPacketLongHeader.

(** Modelled from the spec: the parsing constructor (QUICPacket.h) keeps the
    borrowed bytes and sets no field. *)
Definition parsed `{Headers} (buf : bytes) : QUICPacketHeader :=
  LongHeader
    {| _buf := Some buf;
       _payload := _payload QUICPacketHeaderFields_default;
       _type := _type QUICPacketHeaderFields_default;
       _key_phase := _key_phase QUICPacketHeaderFields_default;
       _connection_id := _connection_id QUICPacketHeaderFields_default;
       _packet_number := _packet_number QUICPacketHeaderFields_default;
       _version := _version QUICPacketHeaderFields_default;
       _payload_len := _payload_len QUICPacketHeaderFields_default;
       _has_key_phase := _has_key_phase QUICPacketHeaderFields_default;
       _has_connection_id := _has_connection_id QUICPacketHeaderFields_default;
       _has_version := _has_version QUICPacketHeaderFields_default |}.

Definition built `{Headers} (type : QUICPacketType.t)
    (connection_id : QUICConnectionId) (packet_number : QUICPacketNumber)
    (version : QUICVersion) (buf : bytes) (len : Z) : QUICPacketHeader :=
  LongHeader
    {| _buf := _buf QUICPacketHeaderFields_default;
       _payload := buf;
       _type := type;
       _key_phase := _key_phase QUICPacketHeaderFields_default;
       _connection_id := connection_id;
       _packet_number := packet_number;
       _version := version;
       _payload_len := len;
       _has_key_phase := _has_key_phase QUICPacketHeaderFields_default;
       _has_connection_id := true;
       _has_version := true |}.

Definition type `{Headers} (f : QUICPacketHeaderFields)
    : result QUICPacketType.t :=
  match _buf f with
  | Some buf =>
      b0 <- byte_at buf 0 ;;
      let type := Z.land b0 0x7F in
      if type <? QUICPacketType.UNINITIALIZED then Ok type
      else Ok QUICPacketType.UNINITIALIZED
  | None => Ok (_type f)
  end.

Definition connection_id (f : QUICPacketHeaderFields)
    : result QUICConnectionId :=
  match _buf f with
  | Some buf => QUICTypeUtil.read_QUICConnectionId buf OFFSET_CONNECTION_ID 8
  | None => Ok (_connection_id f)
  end.

Definition packet_number (f : QUICPacketHeaderFields)
    : result QUICPacketNumber :=
  match _buf f with
  | Some buf => QUICTypeUtil.read_QUICPacketNumber buf OFFSET_PACKET_NUMBER 4
  | None => Ok (_packet_number f)
  end.

Definition has_version (f : QUICPacketHeaderFields) : result bool := Ok true.

Definition version (f : QUICPacketHeaderFields) : result QUICVersion :=
  match _buf f with
  | Some buf => QUICTypeUtil.read_QUICVersion buf OFFSET_VERSION
  | None => Ok (_version f)
  end.

Definition has_connection_id (f : QUICPacketHeaderFields) : result bool :=
  Ok true.

(** The payload pointer, as the bytes it points to. *)
Definition payload (f : QUICPacketHeaderFields) : result bytes :=
  match _buf f with
  | Some buf => Ok (skipn OFFSET_PAYLOAD buf)
  | None => Ok (_payload f)
  end.

Definition has_key_phase (f : QUICPacketHeaderFields) : result bool :=
  Ok false.

Definition key_phase (f : QUICPacketHeaderFields) : result QUICKeyPhase :=
  Ok PHASE_0.

Definition length (f : QUICPacketHeaderFields) : result Z :=
  Ok (uint16 LONGHEADER_LENGTH).

(** [store buf len], as the bytes written to [buf]; [*len] is their number. *)
Definition store (f : QUICPacketHeaderFields) : result bytes :=
  let buf0 := uint8 (0x80 + uint8 (_type f)) in
  Ok ([buf0]
      ++ QUICTypeUtil.write_QUICConnectionId (_connection_id f) 8
      ++ QUICTypeUtil.write_QUICPacketNumber (_packet_number f) 4
      ++ QUICTypeUtil.write_QUICVersion (_version f)).

End QUICPacketLongHeader.

Module QUICPacketShortHeader.

(** Modelled from the spec: the parsing constructor (QUICPacket.h) keeps the
    borrowed bytes and sets no field. *)
Definition parsed `{Headers} (buf : bytes) : QUICPacketHeader :=
  ShortHeader
    {| _buf := Some buf;
       _payload := _payload QUICPacketHeaderFields_default;
       _type := _type QUICPacketHeaderFields_default;
       _key_phase := _key_phase QUICPacketHeaderFields_default;
       _connection_id := _connection_id QUICPacketHeaderFields_default;
       _packet_number := _packet_number QUICPacketHeaderFields_default;
       _version := _version QUICPacketHeaderFields_default;
       _payload_len := _payload_len QUICPacketHeaderFields_default;
       _has_key_phase := _has_key_phase QUICPacketHeaderFields_default;
       _has_connection_id := _has_connection_id QUICPacketHeaderFields_default;
       _has_version := _has_version QUICPacketHeaderFields_default |}
    QUICPacketShortHeaderType.UNINITIALIZED.

(** The key phase both building constructors derive from the type. *)
Definition key_phase_of_type `{Headers} (type : QUICPacketType.t)
    : result QUICKeyPhase :=
  if type =? QUICPacketType.ONE_RTT_PROTECTED_KEY_PHASE_0 then Ok PHASE_0
  else if type =? QUICPacketType.ONE_RTT_PROTECTED_KEY_PHASE_1 then Ok PHASE_1
  else (ink_assert false ;; Ok PHASE_UNINITIALIZED).

(** The width selector both building constructors derive from the packet
    number. *)
Definition packet_number_type_of (packet_number : QUICPacketNumber)
    : QUICPacketShortHeaderType.t :=
  if packet_number <=? 0xFF then QUICPacketShortHeaderType.ONE
  else if packet_number <=? 0xFFFF then QUICPacketShortHeaderType.TWO
  else QUICPacketShortHeaderType.THREE.

Definition built `{Headers} (type : QUICPacketType.t)
    (packet_number : QUICPacketNumber) (buf : bytes) (len : Z)
    : result QUICPacketHeader :=
  key_phase <- key_phase_of_type type ;;
  Ok (ShortHeader
        {| _buf := _buf QUICPacketHeaderFields_default;
           _payload := buf;
           _type := type;
           _key_phase := key_phase;
           _connection_id := _connection_id QUICPacketHeaderFields_default;
           _packet_number := packet_number;
           _version := _version QUICPacketHeaderFields_default;
           _payload_len := len;
           _has_key_phase := true;
           _has_connection_id :=
             _has_connection_id QUICPacketHeaderFields_default;
           _has_version := _has_version QUICPacketHeaderFields_default |}
        (packet_number_type_of packet_number)).

Definition built_with_connection_id `{Headers} (type : QUICPacketType.t)
    (connection_id : QUICConnectionId) (packet_number : QUICPacketNumber)
    (buf : bytes) (len : Z) : result QUICPacketHeader :=
  key_phase <- key_phase_of_type type ;;
  Ok (ShortHeader
        {| _buf := _buf QUICPacketHeaderFields_default;
           _payload := buf;
           _type := type;
           _key_phase := key_phase;
           _connection_id := connection_id;
           _packet_number := packet_number;
           _version := _version QUICPacketHeaderFields_default;
           _payload_len := len;
           _has_key_phase := true;
           _has_connection_id := true;
           _has_version := _has_version QUICPacketHeaderFields_default |}
        (packet_number_type_of packet_number)).

Definition key_phase (f : QUICPacketHeaderFields) : result QUICKeyPhase :=
  match _buf f with
  | Some buf =>
      b0 <- byte_at buf 0 ;;
      if negb (Z.land b0 0x20 =? 0) then Ok PHASE_1 else Ok PHASE_0
  | None => Ok (_key_phase f)
  end.

Definition type `{Headers} (f : QUICPacketHeaderFields)
    : result QUICPacketType.t :=
  key_phase <- key_phase f ;;
  match key_phase with
  | PHASE_0 => Ok QUICPacketType.ONE_RTT_PROTECTED_KEY_PHASE_0
  | PHASE_1 => Ok QUICPacketType.ONE_RTT_PROTECTED_KEY_PHASE_1
  | _ => ink_assert false ;; Ok QUICPacketType.UNINITIALIZED
  end.

Definition has_connection_id (f : QUICPacketHeaderFields) : result bool :=
  match _buf f with
  | Some buf =>
      b0 <- byte_at buf 0 ;;
      Ok (negb (Z.land b0 0x40 =? 0))
  | None => Ok (_has_connection_id f)
  end.

Definition connection_id (f : QUICPacketHeaderFields)
    : result QUICConnectionId :=
  match _buf f with
  | Some buf =>
      present <- has_connection_id f ;;
      ink_release_assert present ;;
      QUICTypeUtil.read_QUICConnectionId buf OFFSET_CONNECTION_ID 8
  | None => Ok (_connection_id f)
  end.

Definition _packet_numberLen `{Headers} (f : QUICPacketHeaderFields)
    (_packet_number_type : QUICPacketShortHeaderType.t) : result Z :=
  type <- match _buf f with
          | Some buf => b0 <- byte_at buf 0 ;; Ok (Z.land b0 0x1F)
          | None => Ok _packet_number_type
          end ;;
  if type =? QUICPacketShortHeaderType.ONE then Ok 1
  else if type =? QUICPacketShortHeaderType.TWO then Ok 2
  else if type =? QUICPacketShortHeaderType.THREE then Ok 4
  else (ink_assert false ;; Ok 0).

Definition packet_number `{Headers} (f : QUICPacketHeaderFields)
    (_packet_number_type : QUICPacketShortHeaderType.t)
    : result QUICPacketNumber :=
  match _buf f with
  | Some buf =>
      n <- _packet_numberLen f _packet_number_type ;;
      present <- has_connection_id f ;;
      let offset := if present then OFFSET_PACKET_NUMBER else 1%nat in
      QUICTypeUtil.read_QUICPacketNumber buf offset (Z.to_nat n)
  | None => Ok (_packet_number f)
  end.

Definition has_version (f : QUICPacketHeaderFields) : result bool := Ok false.

Definition version (f : QUICPacketHeaderFields) : result QUICVersion := Ok 0.

Definition has_key_phase (f : QUICPacketHeaderFields) : result bool := Ok true.

(** Header length, which does not include the payload. *)
Definition length `{Headers} (f : QUICPacketHeaderFields)
    (_packet_number_type : QUICPacketShortHeaderType.t) : result Z :=
  let len := 1 in
  present <- has_connection_id f ;;
  let len := if present then uint16 (len + 8) else len in
  n <- _packet_numberLen f _packet_number_type ;;
  Ok (uint16 (len + n)).

(** The payload pointer, as the bytes it points to. *)
Definition payload `{Headers} (f : QUICPacketHeaderFields)
    (_packet_number_type : QUICPacketShortHeaderType.t) : result bytes :=
  match _buf f with
  | Some buf =>
      n <- length f _packet_number_type ;;
      Ok (skipn (Z.to_nat n) buf)
  | None => Ok (_payload f)
  end.

(** [store buf len], as the bytes written to [buf]; [*len] is their number. *)
Definition store (f : QUICPacketHeaderFields)
    (_packet_number_type : QUICPacketShortHeaderType.t) : result bytes :=
  let buf0 := 0x00 in
  let buf0 := if _has_connection_id f then uint8 (buf0 + 0x40) else buf0 in
  let buf0 :=
    match _key_phase f with
    | PHASE_1 => uint8 (buf0 + 0x20)
    | _ => buf0
    end in
  let buf0 := uint8 (buf0 + uint8 _packet_number_type) in
  let cid := if _has_connection_id f
             then QUICTypeUtil.write_QUICConnectionId (_connection_id f) 8
             else [] in
  pn <- (if _packet_number_type =? QUICPacketShortHeaderType.ONE
         then Ok (QUICTypeUtil.write_QUICPacketNumber (_packet_number f) 1)
         else if _packet_number_type =? QUICPacketShortHeaderType.TWO
         then Ok (QUICTypeUtil.write_QUICPacketNumber (_packet_number f) 2)
         else if _packet_number_type =? QUICPacketShortHeaderType.THREE
         then Ok (QUICTypeUtil.write_QUICPacketNumber (_packet_number f) 4)
         else (ink_release_assert false ;; Ok [])) ;;
  Ok ([buf0] ++ cid ++ pn).

End QUICPacketShortHeader.

(** Virtual dispatch on the header class, and the static constructors. *)
Module QUICPacketHeader.

Definition buf (h : QUICPacketHeader) : option bytes :=
  match h with
  | LongHeader f => _buf f
  | ShortHeader f _ => _buf f
  end.

Definition load `{Headers} (buf : bytes) (len : Z) : result QUICPacketHeader :=
  long <- QUICTypeUtil.hasLongHeader buf ;;
  if long then Ok (QUICPacketLongHeader.parsed buf)
  else Ok (QUICPacketShortHeader.parsed buf).

Definition build_long `{Headers} (type : QUICPacketType.t)
    (connection_id : QUICConnectionId) (packet_number : QUICPacketNumber)
    (version : QUICVersion) (payload : bytes) (len : Z)
    : result QUICPacketHeader :=
  Ok (QUICPacketLongHeader.built type connection_id packet_number version
        payload len).

Definition build_short `{Headers} (type : QUICPacketType.t)
    (packet_number : QUICPacketNumber) (payload : bytes) (len : Z)
    : result QUICPacketHeader :=
  QUICPacketShortHeader.built type packet_number payload len.

Definition build_short_with_connection_id `{Headers} (type : QUICPacketType.t)
    (connection_id : QUICConnectionId) (packet_number : QUICPacketNumber)
    (payload : bytes) (len : Z) : result QUICPacketHeader :=
  QUICPacketShortHeader.built_with_connection_id type connection_id
    packet_number payload len.

Definition type `{Headers} (h : QUICPacketHeader) : result QUICPacketType.t :=
  match h with
  | LongHeader f => QUICPacketLongHeader.type f
  | ShortHeader f _ => QUICPacketShortHeader.type f
  end.

Definition connection_id (h : QUICPacketHeader) : result QUICConnectionId :=
  match h with
  | LongHeader f => QUICPacketLongHeader.connection_id f
  | ShortHeader f _ => QUICPacketShortHeader.connection_id f
  end.

Definition packet_number `{Headers} (h : QUICPacketHeader)
    : result QUICPacketNumber :=
  match h with
  | LongHeader f => QUICPacketLongHeader.packet_number f
  | ShortHeader f pnt => QUICPacketShortHeader.packet_number f pnt
  end.

Definition has_version (h : QUICPacketHeader) : result bool :=
  match h with
  | LongHeader f => QUICPacketLongHeader.has_version f
  | ShortHeader f _ => QUICPacketShortHeader.has_version f
  end.

Definition version (h : QUICPacketHeader) : result QUICVersion :=
  match h with
  | LongHeader f => QUICPacketLongHeader.version f
  | ShortHeader f _ => QUICPacketShortHeader.version f
  end.

Definition has_connection_id (h : QUICPacketHeader) : result bool :=
  match h with
  | LongHeader f => QUICPacketLongHeader.has_connection_id f
  | ShortHeader f _ => QUICPacketShortHeader.has_connection_id f
  end.

Definition payload `{Headers} (h : QUICPacketHeader) : result bytes :=
  match h with
  | LongHeader f => QUICPacketLongHeader.payload f
  | ShortHeader f pnt => QUICPacketShortHeader.payload f pnt
  end.

Definition has_key_phase (h : QUICPacketHeader) : result bool :=
  match h with
  | LongHeader f => QUICPacketLongHeader.has_key_phase f
  | ShortHeader f _ => QUICPacketShortHeader.has_key_phase f
  end.

Definition key_phase (h : QUICPacketHeader) : result QUICKeyPhase :=
  match h with
  | LongHeader f => QUICPacketLongHeader.key_phase f
  | ShortHeader f _ => QUICPacketShortHeader.key_phase f
  end.

Definition length `{Headers} (h : QUICPacketHeader) : result Z :=
  match h with
  | LongHeader f => QUICPacketLongHeader.length f
  | ShortHeader f pnt => QUICPacketShortHeader.length f pnt
  end.

Definition store (h : QUICPacketHeader) : result bytes :=
  match h with
  | LongHeader f => QUICPacketLongHeader.store f
  | ShortHeader f pnt => QUICPacketShortHeader.store f pnt
  end.

End QUICPacketHeader.

(** ** The checksum *)

(** Modelled from the spec: fnv1a (not among the sources at hand) is FNV-1a
    on 64 bits with the standard offset basis and prime, over the first
    [len] bytes; the hash is left as its eight raw bytes, here in the order
    of a little-endian host. *)
Definition fnv1a (data : bytes) (len : Z) : result bytes :=
  input <- memcpy data len ;;
  let hash :=
    fold_left (fun h b => uint64 (Z.lxor h b * 0x100000001b3))
      input 0xcbf29ce484222325 in
  Ok (rev (QUICTypeUtil.write_uint_as_nbytes hash 8)).

(** ** Packets *)

Module QUICPacket.

(** The members of QUICPacket. [_block] is the received block of a parsed
    packet; [_protected_payload] is null ([None]) until a ciphertext is set.
    Modelled from the spec: [_size] and [_protected_payload_size] are declared
    size_t in QUICPacket.h. *)
Record t : Type := {
  _block : option bytes;
  _header : QUICPacketHeader;
  _size : Z;
  _protected_payload : option bytes;
  _protected_payload_size : Z;
  _is_retransmittable : bool
}.

(** The test that guards the checksum in the constructors, in
    [payload_size] and in [store]. *)
Definition is_protected_type `{Headers} (type : QUICPacketType.t) : bool :=
  negb (negb (type =? QUICPacketType.ZERO_RTT_PROTECTED)
        && negb (type =? QUICPacketType.ONE_RTT_PROTECTED_KEY_PHASE_0)
        && negb (type =? QUICPacketType.ONE_RTT_PROTECTED_KEY_PHASE_1)).

Definition from_block `{Headers} (block : bytes) : result t :=
  let size := size_t (Z.of_nat (List.length block)) in
  header <- QUICPacketHeader.load block size ;;
  Ok {| _block := Some block;
        _header := header;
        _size := size;
        _protected_payload := None;
        _protected_payload_size := 0;
        _is_retransmittable := false |}.

(** The body the three building constructors share once the header is
    built. *)
Definition from_header `{Headers} (header : QUICPacketHeader)
    (type : QUICPacketType.t) (len : Z) (retransmittable : bool)
    : result t :=
  header_length <- QUICPacketHeader.length header ;;
  let size := size_t (header_length + len) in
  let size := if is_protected_type type then size
              else size_t (size + FNV1A_HASH_LEN) in
  Ok {| _block := None;
        _header := header;
        _size := size;
        _protected_payload := None;
        _protected_payload_size := 0;
        _is_retransmittable := retransmittable |}.

Definition build_long `{Headers} (type : QUICPacketType.t)
    (connection_id : QUICConnectionId) (packet_number : QUICPacketNumber)
    (version : QUICVersion) (payload : bytes) (len : Z)
    (retransmittable : bool) : result t :=
  header <- QUICPacketHeader.build_long type connection_id packet_number
              version payload len ;;
  from_header header type len retransmittable.

Definition build_short `{Headers} (type : QUICPacketType.t)
    (packet_number : QUICPacketNumber) (payload : bytes) (len : Z)
    (retransmittable : bool) : result t :=
  header <- QUICPacketHeader.build_short type packet_number payload len ;;
  from_header header type len retransmittable.

Definition build_short_with_connection_id `{Headers} (type : QUICPacketType.t)
    (connection_id : QUICConnectionId) (packet_number : QUICPacketNumber)
    (payload : bytes) (len : Z) (retransmittable : bool) : result t :=
  header <- QUICPacketHeader.build_short_with_connection_id type connection_id
              packet_number payload len ;;
  from_header header type len retransmittable.

Definition type `{Headers} (p : t) : result QUICPacketType.t :=
  QUICPacketHeader.type (_header p).

Definition connection_id (p : t) : result QUICConnectionId :=
  QUICPacketHeader.connection_id (_header p).

Definition packet_number `{Headers} (p : t) : result QUICPacketNumber :=
  QUICPacketHeader.packet_number (_header p).

Definition header (p : t) : option bytes :=
  QUICPacketHeader.buf (_header p).

Definition payload `{Headers} (p : t) : result bytes :=
  QUICPacketHeader.payload (_header p).

Definition version (p : t) : result QUICVersion :=
  QUICPacketHeader.version (_header p).

Definition is_retransmittable (p : t) : bool :=
  _is_retransmittable p.

Definition size (p : t) : Z := uint16 (_size p).

Definition header_size `{Headers} (p : t) : result Z :=
  QUICPacketHeader.length (_header p).

Definition payload_size `{Headers} (p : t) : result Z :=
  type <- type p ;;
  header_length <- QUICPacketHeader.length (_header p) ;;
  if negb (is_protected_type type)
  then Ok (uint16 (size_t (size_t (_size p - header_length) - FNV1A_HASH_LEN)))
  else Ok (uint16 (size_t (_size p - header_length))).

Definition key_phase (p : t) : result QUICKeyPhase :=
  QUICPacketHeader.key_phase (_header p).

(** [store buf len], as the bytes written to [buf]; [*len] is their number. *)
Definition store `{Headers} (p : t) : result bytes :=
  written <- QUICPacketHeader.store (_header p) ;;
  let len := Z.of_nat (List.length written) in
  ink_assert (len <=? size p) ;;
  type <- type p ;;
  if negb (is_protected_type type)
  then
    source <- payload p ;;
    n <- payload_size p ;;
    copied <- memcpy source n ;;
    let written := written ++ copied in
    hash <- fnv1a written (Z.of_nat (List.length written)) ;;
    Ok (written ++ hash)
  else
    ink_assert (match _protected_payload p with Some _ => true | None => false
                end) ;;
    copied <- memcpy (match _protected_payload p with Some c => c | None => []
                      end) (_protected_payload_size p) ;;
    Ok (written ++ copied).

Definition store_header (p : t) : result bytes :=
  QUICPacketHeader.store (_header p).

Definition has_valid_fnv1a_hash (p : t) : result bool :=
  match _block p with
  | None => Fault NullPointer
  | Some block =>
      let covered := size_t (Z.of_nat (List.length block) - FNV1A_HASH_LEN) in
      hash <- fnv1a block covered ;;
      trailer <- memcpy (skipn (Z.to_nat covered) block) 8 ;;
      Ok (if list_eq_dec Z.eq_dec trailer hash then true else false)
  end.

Definition set_protected_payload (p : t) (cipher_txt : bytes)
    (cipher_txt_len : Z) : t :=
  {| _block := _block p;
     _header := _header p;
     _size := _size p;
     _protected_payload := Some cipher_txt;
     _protected_payload_size := cipher_txt_len;
     _is_retransmittable := _is_retransmittable p |}.

End QUICPacket.

(** ** The packet number generator *)

Module QUICPacketNumberGenerator.

Record t : Type := { _current : QUICPacketNumber }.

(** Modelled from the spec: a fresh generator (the member initialiser is in
    QUICPacket.h) starts at 0. *)
Definition fresh : t := {| _current := 0 |}.

(** [return this->_current++]: the value returned and the generator left. *)
Definition next (g : t)
    : QUICPacketNumber * t :=
  (_current g, {| _current := uint64 (_current g + 1) |}).

(** [n] calls in a row: the values returned, in call order, and the
    generator left. *)
Fixpoint next_n (n : nat) (g : t)
    : list QUICPacketNumber * t :=
  match n with
  | O => ([], g)
  | S k =>
      let (v, g1) := next g in
      let (vs, g2) := next_n k g1 in
      (v :: vs, g2)
  end.

End QUICPacketNumberGenerator.

(** ** The packet factory *)

(** The cipher the factory calls, known here by its [encrypt] alone: given
    the capacity of the output buffer, the plaintext and its length, the
    packet number, the associated data and its length and the key phase, it
    fails ([None]) or returns the ciphertext written to the output buffer,
    whose length is what it reports as written. *)
Record QUICCrypto : Type := {
  encrypt : Z -> bytes -> Z -> QUICPacketNumber -> bytes -> Z -> QUICKeyPhase
            -> option bytes
}.

Module QUICPacketFactory.

Record t : Type := {
  _version : QUICVersion;
  _crypto : option QUICCrypto;
  _packet_number_generator : QUICPacketNumberGenerator.t
}.

(** Modelled from the spec: a new factory (the member initialisers are in
    QUICPacket.h) has the unset version 0, no cipher bound and a fresh
    generator. *)
Definition fresh : t :=
  {| _version := 0;
     _crypto := None;
     _packet_number_generator := QUICPacketNumberGenerator.fresh |}.

(** The factory after one call of its generator, with the number drawn. *)
Definition draw (factory : t)
    : QUICPacketNumber * t :=
  let (n, g) := QUICPacketNumberGenerator.next
                  (_packet_number_generator factory) in
  (n, {| _version := _version factory;
         _crypto := _crypto factory;
         _packet_number_generator := g |}).

Definition create `{Headers} (block : bytes) : result QUICPacket.t :=
  QUICPacket.from_block block.

Definition create_version_negotiation_packet `{Headers}
    (packet_sent_by_client : QUICPacket.t) : result QUICPacket.t :=
  let len := size_t (4 * Z.of_nat (List.length QUIC_SUPPORTED_VERSIONS)) in
  let versions :=
    fold_left (fun p v => p ++ QUICTypeUtil.write_QUICVersion v)
      QUIC_SUPPORTED_VERSIONS [] in
  connection_id <- QUICPacket.connection_id packet_sent_by_client ;;
  packet_number <- QUICPacket.packet_number packet_sent_by_client ;;
  version <- QUICPacket.version packet_sent_by_client ;;
  QUICPacket.build_long QUICPacketType.VERSION_NEGOTIATION connection_id
    packet_number version versions len false.

Definition create_server_cleartext_packet `{Headers}
    (factory : t) (connection_id : QUICConnectionId)
    (payload : bytes) (len : Z) (retransmittable : bool)
    : result (QUICPacket.t * t) :=
  let (packet_number, factory) := draw factory in
  packet <- QUICPacket.build_long QUICPacketType.SERVER_CLEARTEXT
              connection_id packet_number (_version factory) payload len
              retransmittable ;;
  Ok (packet, factory).

(** The packet returned, or none ([nullptr]) when the cipher fails. *)
Definition create_server_protected_packet `{Headers}
    (factory : t) (connection_id : QUICConnectionId)
    (payload : bytes) (len : Z) (retransmittable : bool)
    : result (option QUICPacket.t * t) :=
  let (packet_number, factory) := draw factory in
  packet <- QUICPacket.build_short_with_connection_id
              QUICPacketType.ONE_RTT_PROTECTED_KEY_PHASE_0 connection_id
              packet_number payload len retransmittable ;;
  let max_cipher_txt_len := 2048 in
  header <- QUICPacket.store_header packet ;;
  let ad := header ++ repeat 0 (17 - List.length header) in
  let ad_len := Z.of_nat (List.length header) in
  match _crypto factory with
  | None => Fault NullPointer
  | Some crypto =>
      plain <- QUICPacket.payload packet ;;
      plain_len <- QUICPacket.payload_size packet ;;
      pkt_num <- QUICPacket.packet_number packet ;;
      phase <- QUICPacket.key_phase packet ;;
      match encrypt crypto max_cipher_txt_len plain plain_len pkt_num ad
              ad_len phase with
      | Some cipher_txt =>
          let cipher_txt_len := Z.of_nat (List.length cipher_txt) in
          Ok (Some (QUICPacket.set_protected_payload packet cipher_txt
                      cipher_txt_len), factory)
      | None => Ok (None, factory)
      end
  end.

Definition create_client_initial_packet `{Headers}
    (factory : t) (connection_id : QUICConnectionId)
    (version : QUICVersion) (payload : bytes) (len : Z)
    : result (QUICPacket.t * t) :=
  let (packet_number, factory) := draw factory in
  packet <- QUICPacket.build_long QUICPacketType.CLIENT_INITIAL
              connection_id packet_number version payload len true ;;
  Ok (packet, factory).

Definition set_version `{Headers} (factory : t)
    (negotiated_version : QUICVersion) : result t :=
  ink_assert (_version factory =? 0) ;;
  Ok {| _version := negotiated_version;
        _crypto := _crypto factory;
        _packet_number_generator := _packet_number_generator factory |}.

Definition set_crypto_module (factory : t)
    (crypto : QUICCrypto) : t :=
  {| _version := _version factory;
     _crypto := Some crypto;
     _packet_number_generator := _packet_number_generator factory |}.

End QUICPacketFactory.

(** ** Concrete headers, for evaluating the model *)

(** A debug and a release build with the packet types numbered from 1, as
    the long header carries them on the wire, and one supported version. *)
Definition debug_headers : Headers :=
  {| DEBUG := true;
     QUICPacketType_first := 1;
     QUIC_SUPPORTED_VERSIONS := [0xFF000005] |}.

Definition release_headers : Headers :=
  {| DEBUG := false;
     QUICPacketType_first := 1;
     QUIC_SUPPORTED_VERSIONS := [0xFF000005] |}.

(** ** What the properties are stated with *)

(** The packet numbers at which the width of a short header's packet number
    changes. *)
Definition width_boundaries : list QUICPacketNumber :=
  [0x00; 0xFF; 0x100; 0xFFFF; 0x10000; 0xFFFFFFFF].

(** What a header shows through its accessors: the type, the connection id
    when there is one, the packet number, the version when there is one and
    the key phase when there is one. *)
Definition shows `{Headers} (h : QUICPacketHeader) (type : QUICPacketType.t)
    (connection_id : option QUICConnectionId)
    (packet_number : QUICPacketNumber) (version : option QUICVersion)
    (key_phase : option QUICKeyPhase) : Prop :=
  QUICPacketHeader.type h = Ok type
  /\ match connection_id with
     | Some c => QUICPacketHeader.has_connection_id h = Ok true
                 /\ QUICPacketHeader.connection_id h = Ok c
     | None => QUICPacketHeader.has_connection_id h = Ok false
     end
  /\ QUICPacketHeader.packet_number h = Ok packet_number
  /\ match version with
     | Some v => QUICPacketHeader.has_version h = Ok true
                 /\ QUICPacketHeader.version h = Ok v
     | None => QUICPacketHeader.has_version h = Ok false
     end
  /\ match key_phase with
     | Some k => QUICPacketHeader.has_key_phase h = Ok true
                 /\ QUICPacketHeader.key_phase h = Ok k
     | None => QUICPacketHeader.has_key_phase h = Ok false
     end.

(** [load (store h)] for a header [h] that was built: [h] is built, is
    stored, the bytes stored (followed by any [rest], the payload on the
    wire) are loaded again, and the header loaded shows the fields that [h]
    shows. *)
Definition round_trips `{Headers} (build : result QUICPacketHeader)
    (rest : bytes) (type : QUICPacketType.t)
    (connection_id : option QUICConnectionId)
    (packet_number : QUICPacketNumber) (version : option QUICVersion)
    (key_phase : option QUICKeyPhase) : Prop :=
  exists h wire h',
    build = Ok h
    /\ QUICPacketHeader.store h = Ok wire
    /\ QUICPacketHeader.load (wire ++ rest)
         (Z.of_nat (length (wire ++ rest))) = Ok h'
    /\ shows h type connection_id packet_number version key_phase
    /\ shows h' type connection_id packet_number version key_phase.

(** The width, in bytes, that the magnitude of a packet number selects. *)
Definition packet_number_width (packet_number : QUICPacketNumber) : nat :=
  if packet_number <=? 0xFF then 1%nat
  else if packet_number <=? 0xFFFF then 2%nat
  else 4%nat.

(** The key phase that a 1-RTT packet type stands for. *)
Definition key_phase_for `{Headers} (type : QUICPacketType.t) : QUICKeyPhase :=
  if type =? QUICPacketType.ONE_RTT_PROTECTED_KEY_PHASE_1 then PHASE_1
  else PHASE_0.

(** The two packet types a short header carries. *)
Definition short_header_type `{Headers} (type : QUICPacketType.t) : Prop :=
  type = QUICPacketType.ONE_RTT_PROTECTED_KEY_PHASE_0
  \/ type = QUICPacketType.ONE_RTT_PROTECTED_KEY_PHASE_1.

(** The flag byte of a short header: bit 6 for the connection id, bit 5 for
    the key phase, the width selector below. *)
Definition short_flag (has_connection_id phase_1 : bool) (selector : Z) : Z :=
  (if has_connection_id then 0x40 else 0) + (if phase_1 then 0x20 else 0)
  + selector.

(** The bytes of a short header on the wire. *)
Definition short_wire (has_connection_id phase_1 : bool) (selector : Z)
    (width : nat) (connection_id : QUICConnectionId)
    (packet_number : QUICPacketNumber) : bytes :=
  [short_flag has_connection_id phase_1 selector]
  ++ (if has_connection_id
      then QUICTypeUtil.write_uint_as_nbytes connection_id 8 else [])
  ++ QUICTypeUtil.write_uint_as_nbytes packet_number width.

(** The width selectors and the widths they stand for. *)
Definition selector_width (selector : Z) (width : nat) : Prop :=
  (selector = 1 /\ width = 1%nat) \/ (selector = 2 /\ width = 2%nat)
  \/ (selector = 3 /\ width = 4%nat).

(** Whether [store] sets the key phase bit for a key phase. *)
Definition phase_1_bit (key_phase : QUICKeyPhase) : bool :=
  match key_phase with
  | PHASE_1 => true
  | _ => false
  end.

(** [length] is the number of bytes [store] writes, and is [expected]. *)
Definition length_matches_store `{Headers} (h : QUICPacketHeader)
    (expected : Z) : Prop :=
  exists wire,
    QUICPacketHeader.store h = Ok wire
    /\ QUICPacketHeader.length h = Ok (Z.of_nat (length wire))
    /\ Z.of_nat (length wire) = expected.

(** The types the short header's building constructors return a header for:
    the two they are meant for, and any type in a release build, where the
    assertion on the type is not checked. *)
Definition short_header_buildable `{Headers} (type : QUICPacketType.t)
    : Prop :=
  short_header_type type \/ DEBUG = false.

(** A short header that stores its packet number in [width] bytes: the bytes
    stored are the flag byte, the eight bytes of the connection id when
    there is one and none otherwise, and the packet number written in
    [width] bytes, with nothing else; bit 6 of the flag byte tells whether
    there is a connection id, its low two bits select that width, and the
    header reports it. *)
Definition stores_packet_number_in `{Headers} (h : QUICPacketHeader)
    (connection_id : option QUICConnectionId)
    (packet_number : QUICPacketNumber) (width : nat) : Prop :=
  exists flag,
    QUICPacketHeader.store h
    = Ok ([flag]
          ++ match connection_id with
             | Some c => QUICTypeUtil.write_QUICConnectionId c 8
             | None => []
             end
          ++ QUICTypeUtil.write_QUICPacketNumber packet_number width)
    /\ length (QUICTypeUtil.write_QUICPacketNumber packet_number width) = width
    /\ Z.testbit flag 6
       = match connection_id with Some _ => true | None => false end
    /\ selector_width (Z.land flag 0x03) width
    /\ match h with
       | ShortHeader f selector =>
           QUICPacketShortHeader._packet_numberLen f selector
           = Ok (Z.of_nat width)
       | LongHeader _ => False
       end.

(** The reading of the flag byte by its two low bits alone: whenever bits
    0-1 of a parsed short header's flag byte select a width, that is the
    width of the packet number, whatever the other bits are. *)
Definition width_from_low_two_bits `{Headers} : Prop :=
  forall (f : QUICPacketHeaderFields) (pnt : QUICPacketShortHeaderType.t)
         (flag : Z) (rest : bytes) (width : nat),
    _buf f = Some (flag :: rest) ->
    0 <= flag < 0x80 ->
    selector_width (Z.land flag 0x03) width ->
    QUICPacketShortHeader._packet_numberLen f pnt = Ok (Z.of_nat width).

(** The bytes a built packet reserves for the checksum: 8, unless its type
    is one of the payload-protected ones. *)
Definition checksum_bytes `{Headers} (type : QUICPacketType.t) : Z :=
  if (type =? QUICPacketType.ZERO_RTT_PROTECTED)
     || (type =? QUICPacketType.ONE_RTT_PROTECTED_KEY_PHASE_0)
     || (type =? QUICPacketType.ONE_RTT_PROTECTED_KEY_PHASE_1)
  then 0 else 8.

(** The size accounting of a packet of the given type, header length and
    payload length. *)
Definition sized `{Headers} (p : QUICPacket.t) (type : QUICPacketType.t)
    (header_length payload_length : Z) : Prop :=
  QUICPacket.type p = Ok type
  /\ QUICPacket.header_size p = Ok header_length
  /\ QUICPacket.size p = header_length + payload_length + checksum_bytes type
  /\ QUICPacket.payload_size p
     = Ok (QUICPacket.size p - header_length - checksum_bytes type).

(** The outcome of [create_server_protected_packet] for the outcome of the
    call it makes to the cipher: with a ciphertext, a packet that stores as
    its header followed by the ciphertext; with a failure, no packet. *)
Definition protected_packet_for `{Headers} (call : option bytes)
    (created : result (option QUICPacket.t * QUICPacketFactory.t)) : Prop :=
  match call with
  | Some cipher_txt =>
      exists p factory' header,
        created = Ok (Some p, factory')
        /\ QUICPacket.store_header p = Ok header
        /\ QUICPacket.store p = Ok (header ++ cipher_txt)
  | None => exists factory', created = Ok (None, factory')
  end.

(** A cipher that gives the same outcome on every call. *)
Definition cipher_stub (outcome : option bytes) : QUICCrypto :=
  {| encrypt := fun _ _ _ _ _ _ _ => outcome |}.

(** A factory fresh but for the cipher bound to it. *)
Definition factory_with (crypto : QUICCrypto) : QUICPacketFactory.t :=
  QUICPacketFactory.set_crypto_module QUICPacketFactory.fresh crypto.

(** [set_protected_payload] as a guarded, one-time transition: on a packet
    whose type is not payload-protected, or on one that has a protected
    payload already, the bytes given are not recorded. *)
Definition set_protected_payload_guarded `{Headers} : Prop :=
  forall (p : QUICPacket.t) (type : QUICPacketType.t) (cipher_txt : bytes)
         (cipher_txt_len : Z),
    QUICPacket.type p = Ok type ->
    QUICPacket.is_protected_type type = false
    \/ QUICPacket._protected_payload p <> None ->
    QUICPacket._protected_payload
      (QUICPacket.set_protected_payload p cipher_txt cipher_txt_len)
    = QUICPacket._protected_payload p.

(** A client initial packet, whose type is not payload-protected. *)
Definition client_initial_sample `{Headers} : result QUICPacket.t :=
  QUICPacket.build_long QUICPacketType.CLIENT_INITIAL 0xAB 0 0xFF000005
    [1; 2; 3] 3 true.

(** The [i]-th chunk of four bytes of a payload. *)
Definition version_chunk (payload : bytes) (i : nat) : bytes :=
  firstn 4 (skipn (4 * i) payload).

(** What the version negotiation packet made in reply to a client packet
    with the given connection id, packet number and version is. *)
Definition negotiates `{Headers} (q : QUICPacket.t)
    (connection_id : QUICConnectionId) (packet_number : QUICPacketNumber)
    (version : QUICVersion) : Prop :=
  QUICPacket.is_retransmittable q = false
  /\ QUICPacket.type q = Ok QUICPacketType.VERSION_NEGOTIATION
  /\ QUICPacket.connection_id q = Ok connection_id
  /\ QUICPacket.packet_number q = Ok packet_number
  /\ QUICPacket.version q = Ok version
  /\ exists payload,
       QUICPacket.payload q = Ok payload
       /\ Z.of_nat (length payload)
          = 4 * Z.of_nat (length QUIC_SUPPORTED_VERSIONS)
       /\ QUICPacket.payload_size q
          = Ok (4 * Z.of_nat (length QUIC_SUPPORTED_VERSIONS))
       /\ forall i,
            (i < length QUIC_SUPPORTED_VERSIONS)%nat ->
            version_chunk payload i
            = QUICTypeUtil.write_QUICVersion (nth i QUIC_SUPPORTED_VERSIONS 0).

(** A header stored and loaded again, the bytes stored being followed on the
    wire by [rest]. *)
Definition reloaded `{Headers} (h : QUICPacketHeader) (rest : bytes)
    (h' : QUICPacketHeader) : Prop :=
  exists wire,
    QUICPacketHeader.store h = Ok wire
    /\ QUICPacketHeader.load (wire ++ rest)
         (Z.of_nat (length (wire ++ rest))) = Ok h'.

(** What a built packet whose type is not payload-protected stores: its
    header, the payload and the checksum of the two. *)
Definition stores_checksummed `{Headers} (p : QUICPacket.t)
    (payload : bytes) (stored : bytes) : Prop :=
  exists header hash,
    QUICPacket.store_header p = Ok header
    /\ fnv1a (header ++ payload) (Z.of_nat (length (header ++ payload)))
       = Ok hash
    /\ length hash = 8%nat
    /\ stored = header ++ payload ++ hash
    /\ QUICPacket.store p = Ok stored
    /\ Z.of_nat (length stored) = QUICPacket.size p.

(** What a packet parsed from the bytes of a stored packet gives back. *)
Definition parses_back `{Headers} (p' : QUICPacket.t)
    (type : QUICPacketType.t) (connection_id : QUICConnectionId)
    (packet_number : QUICPacketNumber) (version : QUICVersion)
    (payload : bytes) : Prop :=
  QUICPacket.type p' = Ok type
  /\ QUICPacket.connection_id p' = Ok connection_id
  /\ QUICPacket.packet_number p' = Ok packet_number
  /\ QUICPacket.version p' = Ok version
  /\ QUICPacket.payload_size p' = Ok (Z.of_nat (length payload))
  /\ (exists body,
        QUICPacket.payload p' = Ok body
        /\ memcpy body (Z.of_nat (length payload)) = Ok payload)
  /\ QUICPacket.has_valid_fnv1a_hash p' = Ok true.

(** The factory once a packet number has been drawn from its generator. *)
Definition advanced (factory : QUICPacketFactory.t) : QUICPacketFactory.t :=
  {| QUICPacketFactory._version := QUICPacketFactory._version factory;
     QUICPacketFactory._crypto := QUICPacketFactory._crypto factory;
     QUICPacketFactory._packet_number_generator :=
       {| QUICPacketNumberGenerator._current :=
            uint64 (QUICPacketNumberGenerator._current
                      (QUICPacketFactory._packet_number_generator factory)
                    + 1) |} |}.

(** The packet number the factory draws next. *)
Definition next_packet_number (factory : QUICPacketFactory.t)
    : QUICPacketNumber :=
  QUICPacketNumberGenerator._current
    (QUICPacketFactory._packet_number_generator factory).

(** What a packet built with a long header shows. *)
Definition long_packet `{Headers} (p : QUICPacket.t)
    (type : QUICPacketType.t) (connection_id : QUICConnectionId)
    (packet_number : QUICPacketNumber) (version : QUICVersion)
    (payload : bytes) (retransmittable : bool) : Prop :=
  QUICPacket.type p = Ok type
  /\ QUICPacket.connection_id p = Ok connection_id
  /\ QUICPacket.packet_number p = Ok packet_number
  /\ QUICPacket.version p = Ok version
  /\ QUICPacket.payload p = Ok payload
  /\ QUICPacket.header_size p = Ok 17
  /\ QUICPacket.is_retransmittable p = retransmittable.

(** Every element of a buffer is a byte. *)
Definition all_bytes (buf : bytes) : Prop :=
  Forall (fun b => 0 <= b < 256) buf.

(** * Properties *)

(** ** The field codec *)

Lemma write_uint_as_nbytes_length (value : Z) (n : nat) :
  length (QUICTypeUtil.write_uint_as_nbytes value n) = n.
Proof.
  induction n as [|k IH]; simpl; [reflexivity | now rewrite IH].
Qed.

Lemma write_uint_as_nbytes_byte (value : Z) (k : nat) :
  Z.land (Z.shiftr value (8 * Z.of_nat k)) 0xFF
  = (value / 2 ^ (8 * Z.of_nat k)) mod 256.
Proof.
  rewrite Z.shiftr_div_pow2 by lia.
  change 0xFF with (Z.ones 8).
  rewrite Z.land_ones by lia.
  reflexivity.
Qed.

Lemma be_fold_write (value : Z) (n : nat) (acc : Z) :
  fold_left QUICTypeUtil.be_step (QUICTypeUtil.write_uint_as_nbytes value n) acc
  = acc * 2 ^ (8 * Z.of_nat n) + value mod 2 ^ (8 * Z.of_nat n).
Proof.
  revert acc; induction n as [|k IH]; intros acc.
  - simpl. rewrite Z.mod_1_r. lia.
  - cbn [QUICTypeUtil.write_uint_as_nbytes fold_left].
    rewrite IH, write_uint_as_nbytes_byte.
    unfold QUICTypeUtil.be_step.
    replace (8 * Z.of_nat (S k)) with (8 * Z.of_nat k + 8) by lia.
    rewrite Z.pow_add_r by lia.
    change (2 ^ 8) with 256.
    rewrite (Z.rem_mul_r value (2 ^ (8 * Z.of_nat k)) 256) by lia.
    lia.
Qed.

Lemma read_nbytes_as_uint_at (pre field post : bytes) :
  QUICTypeUtil.read_nbytes_as_uint (pre ++ field ++ post) (length pre)
    (length field)
  = Ok (fold_left QUICTypeUtil.be_step field 0).
Proof.
  unfold QUICTypeUtil.read_nbytes_as_uint.
  rewrite skipn_app, Nat.sub_diag, skipn_all, app_nil_l. simpl skipn.
  rewrite firstn_app, Nat.sub_diag, firstn_all, firstn_O, app_nil_r.
  now rewrite Nat.eqb_refl.
Qed.

(** Reading back what was written gives the value truncated to the field. *)
Lemma read_write_uint (pre post : bytes) (value : Z) (off n : nat) :
  length pre = off ->
  QUICTypeUtil.read_nbytes_as_uint
    (pre ++ QUICTypeUtil.write_uint_as_nbytes value n ++ post) off n
  = Ok (value mod 2 ^ (8 * Z.of_nat n)).
Proof.
  intros <-.
  rewrite <- (write_uint_as_nbytes_length value n) at 2.
  rewrite read_nbytes_as_uint_at, be_fold_write.
  now rewrite Z.mul_0_l.
Qed.

(** ** Flag bytes *)

Lemma Z_range_forallb (P : Z -> bool) (n : nat) :
  forallb P (map Z.of_nat (seq 0 n)) = true ->
  forall z, 0 <= z < Z.of_nat n -> P z = true.
Proof.
  intros Hall z Hz.
  rewrite forallb_forall in Hall.
  apply Hall.
  rewrite <- (Z2Nat.id z) by lia.
  apply in_map, in_seq. lia.
Qed.

(** The first byte of a stored long header, for a type that fits seven
    bits: the high bit is set and the low seven bits are the type. *)
Lemma long_flag_byte (type : Z) :
  0 <= type < 128 ->
  uint8 (0x80 + uint8 type) = 0x80 + type
  /\ (Z.land (0x80 + type) 0x80 =? 0) = false
  /\ Z.land (0x80 + type) 0x7F = type.
Proof.
  intros Hr.
  pose (P := fun t => (uint8 (0x80 + uint8 t) =? 0x80 + t)
                      && negb (Z.land (0x80 + t) 0x80 =? 0)
                      && (Z.land (0x80 + t) 0x7F =? t)).
  assert (HP : P type = true)
    by (apply (Z_range_forallb P 128); [vm_compute; reflexivity | lia]).
  unfold P in HP.
  apply andb_prop in HP as [HP H3]. apply andb_prop in HP as [H1 H2].
  apply Z.eqb_eq in H1, H3. apply negb_true_iff in H2.
  auto.
Qed.

(** ** Headers on the wire *)

Lemma store_long_built `{Headers} type connection_id packet_number version
    payload len :
  0 <= type < 128 ->
  QUICPacketHeader.store
    (QUICPacketLongHeader.built type connection_id packet_number version
       payload len)
  = Ok ([0x80 + type]
        ++ QUICTypeUtil.write_uint_as_nbytes connection_id 8
        ++ QUICTypeUtil.write_uint_as_nbytes packet_number 4
        ++ QUICTypeUtil.write_uint_as_nbytes version 4).
Proof.
  intros Hr. destruct (long_flag_byte type Hr) as (Hb0 & _).
  unfold QUICPacketHeader.store, QUICPacketLongHeader.built,
    QUICPacketLongHeader.store.
  cbn [_type _connection_id _packet_number _version].
  rewrite Hb0. reflexivity.
Qed.

Lemma Ok_inj {A : Type} (a b : A) : Ok a = Ok b -> a = b.
Proof. intros Heq. now injection Heq. Qed.

Lemma byte_at_0 (b : Z) (l : bytes) : byte_at (b :: l) 0 = Ok b.
Proof. reflexivity. Qed.

Lemma read_field_1 (b0 value : Z) (n : nat) (post : bytes) :
  QUICTypeUtil.read_nbytes_as_uint
    ([b0] ++ QUICTypeUtil.write_uint_as_nbytes value n ++ post) 1 n
  = Ok (value mod 2 ^ (8 * Z.of_nat n)).
Proof. apply read_write_uint. reflexivity. Qed.

Lemma read_field_9 (b0 cid value : Z) (n : nat) (post : bytes) :
  QUICTypeUtil.read_nbytes_as_uint
    ([b0] ++ QUICTypeUtil.write_uint_as_nbytes cid 8
          ++ QUICTypeUtil.write_uint_as_nbytes value n ++ post) 9 n
  = Ok (value mod 2 ^ (8 * Z.of_nat n)).
Proof.
  rewrite (app_assoc [b0]).
  apply read_write_uint.
  rewrite length_app, write_uint_as_nbytes_length. reflexivity.
Qed.

Lemma read_field_13 (b0 cid pn value : Z) (n : nat) (post : bytes) :
  QUICTypeUtil.read_nbytes_as_uint
    ([b0] ++ QUICTypeUtil.write_uint_as_nbytes cid 8
          ++ QUICTypeUtil.write_uint_as_nbytes pn 4
          ++ QUICTypeUtil.write_uint_as_nbytes value n ++ post) 13 n
  = Ok (value mod 2 ^ (8 * Z.of_nat n)).
Proof.
  rewrite (app_assoc [b0]), (app_assoc (_ ++ _)).
  apply read_write_uint.
  rewrite !length_app, !write_uint_as_nbytes_length. reflexivity.
Qed.

Lemma pow2_bytes_1 : 2 ^ (8 * Z.of_nat 1) = 0x100. Proof. reflexivity. Qed.
Lemma pow2_bytes_2 : 2 ^ (8 * Z.of_nat 2) = 0x10000. Proof. reflexivity. Qed.
Lemma pow2_bytes_4 : 2 ^ (8 * Z.of_nat 4) = 2 ^ 32. Proof. reflexivity. Qed.
Lemma pow2_bytes_8 : 2 ^ (8 * Z.of_nat 8) = 2 ^ 64. Proof. reflexivity. Qed.

(** ** Round trip of the long header *)

Lemma long_header_round_trip `{Headers} (type : QUICPacketType.t)
    (connection_id : QUICConnectionId) (packet_number : QUICPacketNumber)
    (version : QUICVersion) (payload rest : bytes) (len : Z) :
  0 <= QUICPacketType_first <= 118 ->
  QUICPacketType.named type ->
  0 <= connection_id < 2 ^ 64 ->
  0 <= packet_number < 2 ^ 32 ->
  0 <= version < 2 ^ 32 ->
  round_trips
    (QUICPacketHeader.build_long type connection_id packet_number version
       payload len)
    rest type (Some connection_id) packet_number (Some version) None.
Proof.
  intros Hfirst Hnamed Hcid Hpn Hver.
  unfold QUICPacketType.named, QUICPacketType.VERSION_NEGOTIATION,
    QUICPacketType.UNINITIALIZED in Hnamed.
  assert (Hr : 0 <= type < 128) by lia.
  destruct (long_flag_byte type Hr) as (Hb0 & Hhigh & Hlow).
  exists (QUICPacketLongHeader.built type connection_id packet_number version
            payload len).
  eexists.
  exists (QUICPacketLongHeader.parsed
            (([0x80 + type]
               ++ QUICTypeUtil.write_uint_as_nbytes connection_id 8
               ++ QUICTypeUtil.write_uint_as_nbytes packet_number 4
               ++ QUICTypeUtil.write_uint_as_nbytes version 4) ++ rest)).
  split; [reflexivity|].
  split; [apply store_long_built; exact Hr|].
  split.
  { unfold QUICPacketHeader.load, QUICTypeUtil.hasLongHeader.
    cbn [app]. rewrite byte_at_0. cbn [bind]. rewrite Hhigh. reflexivity. }
  split.
  { unfold shows. repeat split. }
  unfold shows.
  cbn [QUICPacketHeader.type QUICPacketHeader.has_connection_id
    QUICPacketHeader.connection_id QUICPacketHeader.packet_number
    QUICPacketHeader.has_version QUICPacketHeader.version
    QUICPacketHeader.has_key_phase QUICPacketLongHeader.parsed].
  unfold QUICPacketLongHeader.type, QUICPacketLongHeader.connection_id,
    QUICPacketLongHeader.packet_number, QUICPacketLongHeader.version,
    QUICTypeUtil.read_QUICConnectionId, QUICTypeUtil.read_QUICPacketNumber,
    QUICTypeUtil.read_QUICVersion, OFFSET_CONNECTION_ID, OFFSET_PACKET_NUMBER,
    OFFSET_VERSION.
  cbn [_buf].
  rewrite <- !app_assoc.
  rewrite read_field_1, read_field_9, read_field_13.
  rewrite pow2_bytes_8, pow2_bytes_4.
  rewrite !Z.mod_small by assumption.
  cbn [app]. rewrite byte_at_0. cbn [bind]. rewrite Hlow.
  repeat split.
  unfold QUICPacketType.UNINITIALIZED.
  destruct (type <? QUICPacketType_first + 9) eqn:E; [reflexivity|].
  apply Z.ltb_ge in E. f_equal. lia.
Qed.

(** ** Short headers *)

Lemma key_phase_of_short_header_type `{Headers} (type : QUICPacketType.t) :
  short_header_type type ->
  QUICPacketShortHeader.key_phase_of_type type = Ok (key_phase_for type)
  /\ (key_phase_for type = PHASE_0 /\ type = QUICPacketType.ONE_RTT_PROTECTED_KEY_PHASE_0
      \/ key_phase_for type = PHASE_1 /\ type = QUICPacketType.ONE_RTT_PROTECTED_KEY_PHASE_1).
Proof.
  unfold short_header_type, QUICPacketShortHeader.key_phase_of_type,
    key_phase_for, QUICPacketType.ONE_RTT_PROTECTED_KEY_PHASE_0,
    QUICPacketType.ONE_RTT_PROTECTED_KEY_PHASE_1.
  intros [-> | ->].
  - rewrite Z.eqb_refl.
    replace (QUICPacketType_first + 6 =? QUICPacketType_first + 7) with false
      by (symmetry; apply Z.eqb_neq; lia).
    auto.
  - rewrite Z.eqb_refl.
    replace (QUICPacketType_first + 7 =? QUICPacketType_first + 6) with false
      by (symmetry; apply Z.eqb_neq; lia).
    auto.
Qed.

Lemma packet_number_width_cases (pn : Z) :
  0 <= pn < 2 ^ 32 ->
  (QUICPacketShortHeader.packet_number_type_of pn = 1
   /\ packet_number_width pn = 1%nat /\ pn < 0x100)
  \/ (QUICPacketShortHeader.packet_number_type_of pn = 2
      /\ packet_number_width pn = 2%nat /\ pn < 0x10000)
  \/ (QUICPacketShortHeader.packet_number_type_of pn = 3
      /\ packet_number_width pn = 4%nat /\ pn < 2 ^ 32).
Proof.
  intros Hpn.
  unfold QUICPacketShortHeader.packet_number_type_of, packet_number_width.
  destruct (pn <=? 0xFF) eqn:E1; [apply Z.leb_le in E1; left; repeat split; lia|].
  destruct (pn <=? 0xFFFF) eqn:E2;
    [apply Z.leb_le in E2; right; left; repeat split; lia|].
  right; right. repeat split; lia.
Qed.


Lemma parsed_short_header_fields `{Headers} (f : QUICPacketHeaderFields)
    (pnt : Z) (c k : bool) (selector : Z) (width : nat)
    (connection_id packet_number : Z) (rest : bytes) :
  selector_width selector width ->
  _buf f = Some (short_wire c k selector width connection_id packet_number
                 ++ rest) ->
  QUICTypeUtil.hasLongHeader
    (short_wire c k selector width connection_id packet_number ++ rest)
  = Ok false
  /\ QUICPacketShortHeader.key_phase f = Ok (if k then PHASE_1 else PHASE_0)
  /\ QUICPacketShortHeader.has_connection_id f = Ok c
  /\ QUICPacketShortHeader._packet_numberLen f pnt = Ok (Z.of_nat width)
  /\ QUICPacketShortHeader.packet_number f pnt
     = Ok (packet_number mod 2 ^ (8 * Z.of_nat width))
  /\ (c = true ->
      QUICPacketShortHeader.connection_id f = Ok (connection_id mod 2 ^ 64))
  /\ QUICPacketShortHeader.length f pnt
     = Ok (1 + (if c then 8 else 0) + Z.of_nat width).
Proof.
  intros Hsel Hbuf.
  unfold QUICTypeUtil.hasLongHeader, QUICPacketShortHeader.key_phase,
    QUICPacketShortHeader.length,
    QUICPacketShortHeader.packet_number, QUICPacketShortHeader.connection_id,
    QUICPacketShortHeader._packet_numberLen,
    QUICPacketShortHeader.has_connection_id,
    QUICTypeUtil.read_QUICConnectionId, QUICTypeUtil.read_QUICPacketNumber.
  rewrite Hbuf. unfold short_wire, short_flag.
  rewrite <- !app_assoc.
  destruct Hsel as [(-> & ->) | [(-> & ->) | (-> & ->)]]; destruct c, k.
  all: cbn [Z.add Pos.add Pos.succ Pos.add_carry].
  all: rewrite ?read_field_1, ?read_field_9.
  all: cbn [app]; rewrite byte_at_0; cbn [app bind].
  all: cbn [Z.land Pos.land Z.eqb Pos.eqb negb bind
            QUICPacketShortHeaderType.ONE QUICPacketShortHeaderType.TWO
            QUICPacketShortHeaderType.THREE Z.of_N Pos.Nsucc_double
            Pos.Ndouble N.succ_double N.double Z.to_nat Pos.to_nat
            Pos.iter_op Nat.add Z.of_nat Pos.of_succ_nat Pos.succ
            OFFSET_PACKET_NUMBER OFFSET_CONNECTION_ID ink_release_assert].
  all: repeat split; try reflexivity; try discriminate.
  all: first [ exact (read_field_1 _ _ 1 _) | exact (read_field_1 _ _ 2 _)
             | exact (read_field_1 _ _ 4 _) | exact (read_field_9 _ _ _ 1 _)
             | exact (read_field_9 _ _ _ 2 _) | exact (read_field_9 _ _ _ 4 _) ].
Qed.


Lemma store_short_header `{Headers} (f : QUICPacketHeaderFields)
    (k : bool) (selector : Z) (width : nat) :
  selector_width selector width ->
  _key_phase f = (if k then PHASE_1 else PHASE_0) ->
  QUICPacketShortHeader.store f selector
  = Ok (short_wire (_has_connection_id f) k selector width (_connection_id f)
          (_packet_number f)).
Proof.
  intros Hsel Hk.
  unfold QUICPacketShortHeader.store, short_wire, short_flag,
    QUICTypeUtil.write_QUICConnectionId, QUICTypeUtil.write_QUICPacketNumber.
  rewrite Hk.
  destruct Hsel as [(-> & ->) | [(-> & ->) | (-> & ->)]];
    destruct (_has_connection_id f), k; reflexivity.
Qed.

Lemma built_short_header_fields `{Headers} (f : QUICPacketHeaderFields)
    (pnt : Z) (k : bool) :
  _buf f = None ->
  _key_phase f = (if k then PHASE_1 else PHASE_0) ->
  QUICPacketShortHeader.key_phase f = Ok (if k then PHASE_1 else PHASE_0)
  /\ QUICPacketShortHeader.type f
     = Ok (if k then QUICPacketType.ONE_RTT_PROTECTED_KEY_PHASE_1
           else QUICPacketType.ONE_RTT_PROTECTED_KEY_PHASE_0)
  /\ QUICPacketShortHeader.has_connection_id f = Ok (_has_connection_id f)
  /\ QUICPacketShortHeader.connection_id f = Ok (_connection_id f)
  /\ QUICPacketShortHeader.packet_number f pnt = Ok (_packet_number f).
Proof.
  intros Hbuf Hk.
  unfold QUICPacketShortHeader.type, QUICPacketShortHeader.key_phase,
    QUICPacketShortHeader.has_connection_id,
    QUICPacketShortHeader.connection_id, QUICPacketShortHeader.packet_number.
  rewrite Hbuf, Hk. destruct k; repeat split.
Qed.

Lemma short_type_of_key_phase `{Headers} (f : QUICPacketHeaderFields)
    (k : bool) :
  QUICPacketShortHeader.key_phase f = Ok (if k then PHASE_1 else PHASE_0) ->
  QUICPacketShortHeader.type f
  = Ok (if k then QUICPacketType.ONE_RTT_PROTECTED_KEY_PHASE_1
        else QUICPacketType.ONE_RTT_PROTECTED_KEY_PHASE_0).
Proof.
  intros Hk. unfold QUICPacketShortHeader.type. rewrite Hk.
  destruct k; reflexivity.
Qed.

Lemma packet_number_width_selector (pn : Z) :
  selector_width (QUICPacketShortHeader.packet_number_type_of pn)
    (packet_number_width pn).
Proof.
  unfold selector_width, QUICPacketShortHeader.packet_number_type_of,
    packet_number_width.
  destruct (pn <=? 0xFF); [now left|].
  destruct (pn <=? 0xFFFF); [now right; left | now right; right].
Qed.

Lemma packet_number_fits_width (pn : Z) :
  0 <= pn < 2 ^ 32 ->
  pn mod 2 ^ (8 * Z.of_nat (packet_number_width pn)) = pn.
Proof.
  intros Hpn. apply Z.mod_small. unfold packet_number_width.
  destruct (pn <=? 0xFF) eqn:E1; [apply Z.leb_le in E1; rewrite pow2_bytes_1; lia|].
  destruct (pn <=? 0xFFFF) eqn:E2;
    [apply Z.leb_le in E2; rewrite pow2_bytes_2; lia|].
  rewrite pow2_bytes_4. lia.
Qed.

(** A short header, as its fields stand after either building constructor. *)
Lemma short_header_fields_round_trip `{Headers} (f : QUICPacketHeaderFields)
    (k : bool) (rest : bytes) :
  _buf f = None ->
  _key_phase f = (if k then PHASE_1 else PHASE_0) ->
  0 <= _connection_id f < 2 ^ 64 ->
  0 <= _packet_number f < 2 ^ 32 ->
  round_trips
    (Ok (ShortHeader f
           (QUICPacketShortHeader.packet_number_type_of (_packet_number f))))
    rest
    (if k then QUICPacketType.ONE_RTT_PROTECTED_KEY_PHASE_1
     else QUICPacketType.ONE_RTT_PROTECTED_KEY_PHASE_0)
    (if _has_connection_id f then Some (_connection_id f) else None)
    (_packet_number f) None
    (Some (if k then PHASE_1 else PHASE_0)).
Proof.
  intros Hbuf Hk Hcid Hpn.
  pose proof (packet_number_width_selector (_packet_number f)) as Hsel.
  set (selector := QUICPacketShortHeader.packet_number_type_of
                     (_packet_number f)) in *.
  set (width := packet_number_width (_packet_number f)) in *.
  set (wire := short_wire (_has_connection_id f) k selector width
                 (_connection_id f) (_packet_number f)).
  destruct (built_short_header_fields f selector k Hbuf Hk)
    as (Bk & Bt & Bc & Bi & Bn).
  destruct (parsed_short_header_fields
              (match QUICPacketShortHeader.parsed (wire ++ rest) with
               | ShortHeader g _ => g | LongHeader g => g end)
              QUICPacketShortHeaderType.UNINITIALIZED
              (_has_connection_id f) k selector width (_connection_id f)
              (_packet_number f) rest Hsel eq_refl)
    as (Plong & Pk & Pc & _ & Pn & Pi & _).
  exists (ShortHeader f selector), wire,
    (QUICPacketShortHeader.parsed (wire ++ rest)).
  split; [reflexivity|].
  split; [apply store_short_header; assumption|].
  split.
  { unfold QUICPacketHeader.load. fold wire in Plong. rewrite Plong.
    reflexivity. }
  unfold shows.
  cbn [QUICPacketHeader.type QUICPacketHeader.has_connection_id
    QUICPacketHeader.connection_id QUICPacketHeader.packet_number
    QUICPacketHeader.has_version QUICPacketHeader.has_key_phase
    QUICPacketHeader.key_phase QUICPacketShortHeader.parsed].
  cbn [QUICPacketShortHeader.parsed] in Pk, Pc, Pn, Pi.
  fold wire in Pk, Pc, Pn, Pi.
  rewrite Bt, Bc, Bi, Bn, Bk, Pc, Pn, Pk.
  rewrite (short_type_of_key_phase _ k Pk).
  unfold width. rewrite packet_number_fits_width by assumption.
  destruct (_has_connection_id f).
  - rewrite Pi by reflexivity. rewrite Z.mod_small by assumption.
    repeat split.
  - repeat split.
Qed.

(** ** Round trip of built headers *)

Lemma width_boundaries_fit (pn : Z) :
  In pn width_boundaries -> 0 <= pn < 2 ^ 32.
Proof.
  unfold width_boundaries. simpl.
  intros [<- | [<- | [<- | [<- | [<- | [<- | []]]]]]]; split;
    try apply Z.leb_le; try apply Z.ltb_lt; reflexivity.
Qed.

Lemma key_phase_for_cases `{Headers} (type : QUICPacketType.t) :
  short_header_type type ->
  exists k : bool,
    key_phase_for type = (if k then PHASE_1 else PHASE_0)
    /\ type = (if k then QUICPacketType.ONE_RTT_PROTECTED_KEY_PHASE_1
               else QUICPacketType.ONE_RTT_PROTECTED_KEY_PHASE_0).
Proof.
  intros Htype.
  destruct (key_phase_of_short_header_type type Htype)
    as (_ & [(Hk & Ht) | (Hk & Ht)]).
  - exists false. auto.
  - exists true. auto.
Qed.

(** In a debug build the short header refuses every other type. *)
Lemma short_header_refuses_other_types `{Headers} (type : QUICPacketType.t)
    (connection_id : QUICConnectionId) (packet_number : QUICPacketNumber)
    (payload : bytes) (len : Z) :
  DEBUG = true ->
  ~ short_header_type type ->
  QUICPacketHeader.build_short type packet_number payload len
  = Fault AssertionFailed
  /\ QUICPacketHeader.build_short_with_connection_id type connection_id
       packet_number payload len
     = Fault AssertionFailed.
Proof.
  intros Hdebug Hother.
  unfold QUICPacketHeader.build_short,
    QUICPacketHeader.build_short_with_connection_id,
    QUICPacketShortHeader.built,
    QUICPacketShortHeader.built_with_connection_id,
    QUICPacketShortHeader.key_phase_of_type, ink_assert.
  rewrite Hdebug.
  destruct (type =? QUICPacketType.ONE_RTT_PROTECTED_KEY_PHASE_0) eqn:E0;
    [apply Z.eqb_eq in E0; exfalso; apply Hother; now left|].
  destruct (type =? QUICPacketType.ONE_RTT_PROTECTED_KEY_PHASE_1) eqn:E1;
    [apply Z.eqb_eq in E1; exfalso; apply Hother; now right|].
  split; reflexivity.
Qed.

(** C1. For every packet type and every packet number at a width boundary
    (0x00, 0xFF, 0x100, 0xFFFF, 0x10000, 0xFFFFFFFF), a header built from
    the fields, stored and loaded again shows the type, the connection id
    (when present), the packet number, the version (when present) and the
    key phase (when present) it was built from: in the long form for every
    type, and in both short forms for the two types a short header carries.
    The connection id is a 64-bit value, the version a 32-bit value, and the
    packet types are numbered so that they fit the seven bits of the long
    header's first byte. *)
Theorem header_load_store_round_trip `{Headers} (type : QUICPacketType.t)
    (connection_id : QUICConnectionId) (packet_number : QUICPacketNumber)
    (version : QUICVersion) (payload rest : bytes) (len : Z) :
  0 <= QUICPacketType_first <= 118 ->
  QUICPacketType.named type ->
  0 <= connection_id < 2 ^ 64 ->
  In packet_number width_boundaries ->
  0 <= version < 2 ^ 32 ->
  round_trips
    (QUICPacketHeader.build_long type connection_id packet_number version
       payload len)
    rest type (Some connection_id) packet_number (Some version) None
  /\ (short_header_type type ->
      round_trips
        (QUICPacketHeader.build_short type packet_number payload len)
        rest type None packet_number None (Some (key_phase_for type))
      /\ round_trips
           (QUICPacketHeader.build_short_with_connection_id type
              connection_id packet_number payload len)
           rest type (Some connection_id) packet_number None
           (Some (key_phase_for type))).
Proof.
  intros Hfirst Hnamed Hcid Hin Hver.
  pose proof (width_boundaries_fit packet_number Hin) as Hpn.
  split; [apply long_header_round_trip; assumption|].
  intros Htype.
  destruct (key_phase_of_short_header_type type Htype) as (Hbuilt & _).
  destruct (key_phase_for_cases type Htype) as (k & Hk & Ht).
  unfold QUICPacketHeader.build_short,
    QUICPacketHeader.build_short_with_connection_id,
    QUICPacketShortHeader.built,
    QUICPacketShortHeader.built_with_connection_id.
  rewrite Hbuilt, Hk. cbn [bind].
  split.
  - match goal with
    | |- round_trips (Ok (ShortHeader ?f _)) _ _ _ _ _ _ =>
        pose proof (short_header_fields_round_trip f k rest eq_refl eq_refl)
          as Hrt
    end.
    cbn [_connection_id _packet_number _has_connection_id
         QUICPacketHeaderFields_default] in Hrt.
    rewrite <- Ht in Hrt. apply Hrt; [split; reflexivity || lia | exact Hpn].
  - match goal with
    | |- round_trips (Ok (ShortHeader ?f _)) _ _ _ _ _ _ =>
        pose proof (short_header_fields_round_trip f k rest eq_refl eq_refl)
          as Hrt
    end.
    cbn [_connection_id _packet_number _has_connection_id] in Hrt.
    rewrite <- Ht in Hrt. apply Hrt; assumption.
Qed.

Lemma header_load_store_round_trip_witness :
  short_header_type (H := debug_headers) 7
  /\ round_trips (H := debug_headers)
    (QUICPacketHeader.build_long (H := debug_headers) 7 0x0102030405060708
       0x100 0xFF000005 [1; 2; 3] 3)
    [1; 2; 3] 7 (Some 0x0102030405060708) 0x100 (Some 0xFF000005) None
  /\ (short_header_type (H := debug_headers) 7 ->
      round_trips (H := debug_headers)
        (QUICPacketHeader.build_short (H := debug_headers) 7 0x100 [1; 2; 3] 3)
        [1; 2; 3] 7 None 0x100 None
        (Some (key_phase_for (H := debug_headers) 7))
      /\ round_trips (H := debug_headers)
           (QUICPacketHeader.build_short_with_connection_id
              (H := debug_headers) 7 0x0102030405060708 0x100 [1; 2; 3] 3)
           [1; 2; 3] 7 (Some 0x0102030405060708) 0x100 None
           (Some (key_phase_for (H := debug_headers) 7))).
Proof.
  split; [left; reflexivity|].
  apply (header_load_store_round_trip (H := debug_headers)).
  - simpl. lia.
  - vm_compute. split; discriminate.
  - lia.
  - simpl. auto.
  - lia.
Defined.

Lemma store_short_header_any_phase (f : QUICPacketHeaderFields)
    (selector : Z) (width : nat) :
  selector_width selector width ->
  QUICPacketShortHeader.store f selector
  = Ok (short_wire (_has_connection_id f) (phase_1_bit (_key_phase f))
          selector width (_connection_id f) (_packet_number f)).
Proof.
  intros Hsel.
  unfold QUICPacketShortHeader.store, short_wire, short_flag, phase_1_bit,
    QUICTypeUtil.write_QUICConnectionId, QUICTypeUtil.write_QUICPacketNumber.
  destruct Hsel as [(-> & ->) | [(-> & ->) | (-> & ->)]];
    destruct (_has_connection_id f), (_key_phase f); reflexivity.
Qed.

Lemma short_wire_length (c k : bool) (selector : Z) (width : nat)
    (connection_id packet_number : Z) :
  Z.of_nat (length (short_wire c k selector width connection_id
                      packet_number))
  = 1 + (if c then 8 else 0) + Z.of_nat width.
Proof.
  unfold short_wire.
  rewrite !length_app, write_uint_as_nbytes_length.
  destruct c; [rewrite write_uint_as_nbytes_length|]; cbn [length]; lia.
Qed.

Lemma built_short_header_length `{Headers} (f : QUICPacketHeaderFields)
    (selector : Z) (width : nat) :
  _buf f = None ->
  selector_width selector width ->
  QUICPacketShortHeader._packet_numberLen f selector = Ok (Z.of_nat width)
  /\ QUICPacketShortHeader.length f selector
     = Ok (1 + (if _has_connection_id f then 8 else 0) + Z.of_nat width).
Proof.
  intros Hbuf Hsel.
  unfold QUICPacketShortHeader.length, QUICPacketShortHeader._packet_numberLen,
    QUICPacketShortHeader.has_connection_id.
  rewrite Hbuf.
  destruct Hsel as [(-> & ->) | [(-> & ->) | (-> & ->)]];
    destruct (_has_connection_id f); split; reflexivity.
Qed.

Lemma short_flag_bits (c k : bool) (selector : Z) (width : nat) :
  selector_width selector width ->
  Z.land (short_flag c k selector) 0x03 = selector
  /\ Z.land (short_flag c k selector) 0x1F = selector
  /\ Z.testbit (short_flag c k selector) 5 = k
  /\ Z.testbit (short_flag c k selector) 6 = c
  /\ Z.testbit (short_flag c k selector) 7 = false.
Proof.
  intros [(-> & _) | [(-> & _) | (-> & _)]]; destruct c, k; repeat split.
Qed.

(** Both building constructors of the short header succeed on a type the
    short header carries, and in a release build on any type. *)
Lemma short_header_built `{Headers} (type : QUICPacketType.t) :
  short_header_buildable type ->
  exists key_phase,
    QUICPacketShortHeader.key_phase_of_type type = Ok key_phase.
Proof.
  intros [Htype | Hrelease].
  - destruct (key_phase_of_short_header_type type Htype) as (Hk & _).
    eauto.
  - unfold QUICPacketShortHeader.key_phase_of_type, ink_assert.
    rewrite Hrelease. cbn [andb bind].
    destruct (_ =? _); [eauto|]. destruct (_ =? _); eauto.
Qed.

(** C5. For every built header, [length] is the number of bytes [store]
    writes: 17 for a long header, and for a short header 1, plus 8 when it
    has a connection id, plus the width of its packet number. A short header
    is built for the two types it carries, and in a release build for any
    type. *)
Theorem header_length_is_stored_length `{Headers} (type : QUICPacketType.t)
    (connection_id : QUICConnectionId) (packet_number : QUICPacketNumber)
    (version : QUICVersion) (payload : bytes) (len : Z) :
  length_matches_store
    (QUICPacketLongHeader.built type connection_id packet_number version
       payload len) 17
  /\ (short_header_buildable type ->
      (exists h,
         QUICPacketHeader.build_short type packet_number payload len = Ok h
         /\ length_matches_store h
              (1 + Z.of_nat (packet_number_width packet_number)))
      /\ (exists h,
            QUICPacketHeader.build_short_with_connection_id type
              connection_id packet_number payload len = Ok h
            /\ length_matches_store h
                 (1 + 8 + Z.of_nat (packet_number_width packet_number)))).
Proof.
  split.
  { eexists. split; [reflexivity|].
    rewrite !length_app, !write_uint_as_nbytes_length. split; reflexivity. }
  intros Hbuild.
  destruct (short_header_built type Hbuild) as (key_phase & Hk).
  pose proof (packet_number_width_selector packet_number) as Hsel.
  unfold QUICPacketHeader.build_short,
    QUICPacketHeader.build_short_with_connection_id,
    QUICPacketShortHeader.built,
    QUICPacketShortHeader.built_with_connection_id.
  rewrite Hk. cbn [bind].
  split; eexists; (split; [reflexivity|]); unfold length_matches_store;
    cbn [QUICPacketHeader.store QUICPacketHeader.length].
  all: match goal with
       | |- context [QUICPacketShortHeader.store ?f _] =>
           destruct (built_short_header_length f _ _ eq_refl Hsel)
             as (_ & Hlen);
           rewrite (store_short_header_any_phase f _ _ Hsel), Hlen
       end.
  all: eexists; split; [reflexivity|]; rewrite short_wire_length;
       cbn [_has_connection_id QUICPacketHeaderFields_default];
       split; reflexivity.
Qed.

Lemma header_length_is_stored_length_witness :
  short_header_buildable (H := debug_headers) 8
  /\ (exists h,
        QUICPacketHeader.build_short (H := debug_headers) 8 0x1234 [] 0 = Ok h
        /\ length_matches_store (H := debug_headers) h
             (1 + Z.of_nat (packet_number_width 0x1234)))
  /\ (exists h,
        QUICPacketHeader.build_short_with_connection_id (H := debug_headers)
          8 0xAB 0x1234 [] 0 = Ok h
        /\ length_matches_store (H := debug_headers) h
             (1 + 8 + Z.of_nat (packet_number_width 0x1234))).
Proof.
  assert (Hb : short_header_buildable (H := debug_headers) 8)
    by (left; right; reflexivity).
  split; [exact Hb|].
  exact (proj2 (header_length_is_stored_length (H := debug_headers) 8 0xAB
                  0x1234 0 [] 0) Hb).
Defined.

Lemma built_short_stores_packet_number_in `{Headers}
    (f : QUICPacketHeaderFields) :
  _buf f = None ->
  stores_packet_number_in
    (ShortHeader f
       (QUICPacketShortHeader.packet_number_type_of (_packet_number f)))
    (if _has_connection_id f then Some (_connection_id f) else None)
    (_packet_number f) (packet_number_width (_packet_number f)).
Proof.
  intros Hbuf.
  pose proof (packet_number_width_selector (_packet_number f)) as Hsel.
  destruct (built_short_header_length f _ _ Hbuf Hsel) as (Hlen & _).
  destruct (short_flag_bits (_has_connection_id f)
              (phase_1_bit (_key_phase f)) _ _ Hsel)
    as (Hlow & _ & _ & Hbit6 & _).
  exists (short_flag (_has_connection_id f) (phase_1_bit (_key_phase f))
            (QUICPacketShortHeader.packet_number_type_of (_packet_number f))).
  split.
  { cbn [QUICPacketHeader.store].
    rewrite (store_short_header_any_phase f _ _ Hsel).
    unfold short_wire, QUICTypeUtil.write_QUICConnectionId,
      QUICTypeUtil.write_QUICPacketNumber.
    destruct (_has_connection_id f); reflexivity. }
  split; [apply write_uint_as_nbytes_length|].
  split; [rewrite Hbit6; destruct (_has_connection_id f); reflexivity|].
  split; [rewrite Hlow; exact Hsel | exact Hlen].
Qed.

(** C8. The width with which a built short header stores its packet number
    depends on the magnitude of the packet number alone: one byte up to
    0xFF, two bytes up to 0xFFFF, four bytes above. The bytes stored are the
    flag byte, the connection id when the header has one, and the packet
    number in exactly that many bytes; the low two bits of the flag byte
    select that width, and the header reports it. *)
Theorem short_header_width_by_magnitude `{Headers} (type : QUICPacketType.t)
    (connection_id : QUICConnectionId) (packet_number : QUICPacketNumber)
    (payload : bytes) (len : Z) :
  short_header_buildable type ->
  let width := if packet_number <=? 0xFF then 1%nat
               else if packet_number <=? 0xFFFF then 2%nat
               else 4%nat in
  (exists h,
     QUICPacketHeader.build_short type packet_number payload len = Ok h
     /\ stores_packet_number_in h None packet_number width)
  /\ (exists h,
        QUICPacketHeader.build_short_with_connection_id type connection_id
          packet_number payload len = Ok h
        /\ stores_packet_number_in h (Some connection_id) packet_number
             width).
Proof.
  intros Hbuild width.
  destruct (short_header_built type Hbuild) as (key_phase & Hk).
  unfold QUICPacketHeader.build_short,
    QUICPacketHeader.build_short_with_connection_id,
    QUICPacketShortHeader.built,
    QUICPacketShortHeader.built_with_connection_id.
  rewrite Hk. cbn [bind].
  split; eexists; (split; [reflexivity|]).
  all: match goal with
       | |- stores_packet_number_in (ShortHeader ?f _) _ _ _ =>
           exact (built_short_stores_packet_number_in f eq_refl)
       end.
Qed.

Lemma short_header_width_by_magnitude_witness :
  (exists h,
     QUICPacketHeader.build_short (H := debug_headers) 7 65536 [] 0 = Ok h
     /\ stores_packet_number_in (H := debug_headers) h None 65536 4)
  /\ (exists h,
        QUICPacketHeader.build_short_with_connection_id (H := debug_headers)
          7 0xAB 65536 [] 0 = Ok h
        /\ stores_packet_number_in (H := debug_headers) h (Some 0xAB) 65536
             4).
Proof.
  apply (short_header_width_by_magnitude (H := debug_headers) 7 0xAB 65536
           [] 0).
  left. left. reflexivity.
Defined.

Example short_header_width_255 :
  bind (QUICPacketHeader.build_short (H := debug_headers) 7 255 [] 0)
    QUICPacketHeader.store = Ok [0x01; 255].
Proof. reflexivity. Qed.

Example short_header_width_256 :
  bind (QUICPacketHeader.build_short (H := debug_headers) 7 256 [] 0)
    QUICPacketHeader.store = Ok [0x02; 1; 0].
Proof. reflexivity. Qed.

Example short_header_width_65536 :
  bind (QUICPacketHeader.build_short (H := debug_headers) 7 65536 [] 0)
    QUICPacketHeader.store = Ok [0x03; 0; 1; 0; 0].
Proof. reflexivity. Qed.

Lemma flag_low_five_bits (flag : Z) :
  0 <= flag < 256 ->
  (Z.testbit flag 2 = false /\ Z.testbit flag 3 = false
   /\ Z.testbit flag 4 = false -> Z.land flag 0x1F = Z.land flag 0x03)
  /\ (Z.testbit flag 2 = true \/ Z.testbit flag 3 = true
      \/ Z.testbit flag 4 = true \/ Z.land flag 0x03 = 0 ->
      Z.land flag 0x1F <> 1 /\ Z.land flag 0x1F <> 2
      /\ Z.land flag 0x1F <> 3).
Proof.
  intros Hr.
  pose (high := fun b => Z.testbit b 2 || Z.testbit b 3 || Z.testbit b 4).
  pose (P := fun b =>
          (high b || (Z.land b 0x1F =? Z.land b 0x03))
          && (negb (high b || (Z.land b 0x03 =? 0))
              || (negb (Z.land b 0x1F =? 1) && negb (Z.land b 0x1F =? 2)
                  && negb (Z.land b 0x1F =? 3)))).
  assert (HP : P flag = true)
    by (apply (Z_range_forallb P 256); [vm_compute; reflexivity | lia]).
  unfold P, high in HP. apply andb_prop in HP as [H1 H2].
  split.
  - intros (B2 & B3 & B4). rewrite B2, B3, B4 in H1. cbn [orb] in H1.
    now apply Z.eqb_eq.
  - intros Hany.
    assert (Hhigh : Z.testbit flag 2 || Z.testbit flag 3 || Z.testbit flag 4
                    || (Z.land flag 3 =? 0) = true).
    { destruct Hany as [-> | [-> | [-> | ->]]];
        rewrite ?orb_true_r; reflexivity. }
    rewrite Hhigh in H2. cbn [negb orb] in H2.
    apply andb_prop in H2 as [H2 N3]. apply andb_prop in H2 as [N1 N2].
    apply negb_true_iff, Z.eqb_neq in N1, N2, N3. auto.
Qed.

(** C3, as the code has it. The width of a parsed short header's packet
    number is selected by the low five bits of the flag byte. With bits 2-4
    clear, the selector in bits 0-1 gives the width (0b01 one byte, 0b10 two,
    0b11 four), whatever bits 5-7 are. With any of bits 2-4 set, or with the
    selector 0b00, no width is selected: the assertion fails in a debug
    build, and the width is 0 in a release build. *)
Theorem short_header_width_from_low_five_bits `{Headers}
    (f : QUICPacketHeaderFields) (pnt : QUICPacketShortHeaderType.t)
    (flag : Z) (rest : bytes) :
  _buf f = Some (flag :: rest) ->
  0 <= flag < 256 ->
  (Z.testbit flag 2 = false /\ Z.testbit flag 3 = false
   /\ Z.testbit flag 4 = false ->
   forall width, selector_width (Z.land flag 0x03) width ->
     QUICPacketShortHeader._packet_numberLen f pnt = Ok (Z.of_nat width))
  /\ (Z.testbit flag 2 = true \/ Z.testbit flag 3 = true
      \/ Z.testbit flag 4 = true \/ Z.land flag 0x03 = 0 ->
      QUICPacketShortHeader._packet_numberLen f pnt
      = if DEBUG then Fault AssertionFailed else Ok 0).
Proof.
  intros Hbuf Hr.
  destruct (flag_low_five_bits flag Hr) as (Hclear & Hset).
  unfold QUICPacketShortHeader._packet_numberLen.
  rewrite Hbuf, byte_at_0. cbn [bind].
  unfold QUICPacketShortHeaderType.ONE, QUICPacketShortHeaderType.TWO,
    QUICPacketShortHeaderType.THREE.
  split.
  - intros Hbits width Hsel. rewrite (Hclear Hbits).
    destruct Hsel as [(-> & ->) | [(-> & ->) | (-> & ->)]]; reflexivity.
  - intros Hany. destruct (Hset Hany) as (N1 & N2 & N3).
    apply Z.eqb_neq in N1, N2, N3. rewrite N1, N2, N3.
    unfold ink_assert. destruct DEBUG; reflexivity.
Qed.

Lemma short_header_width_from_low_five_bits_witness :
  QUICPacketShortHeader._packet_numberLen (H := debug_headers)
    {| _buf := Some [0x62; 1; 2; 3; 4; 5; 6; 7; 8; 0xAB; 0xCD];
       _payload := []; _type := 10; _key_phase := PHASE_UNINITIALIZED;
       _connection_id := 0; _packet_number := 0; _version := 0;
       _payload_len := 0; _has_key_phase := false;
       _has_connection_id := false; _has_version := false |} 4
  = Ok (Z.of_nat 2).
Proof.
  match goal with
  | |- QUICPacketShortHeader._packet_numberLen ?f _ = _ =>
      apply (proj1 (short_header_width_from_low_five_bits
                      (H := debug_headers) f 4 0x62
                      [1; 2; 3; 4; 5; 6; 7; 8; 0xAB; 0xCD]
                      eq_refl ltac:(lia)))
  end.
  - repeat split.
  - right. left. split; reflexivity.
Defined.

(** The flag byte 0x05 has 0b01 in bits 0-1 and bit 2 set: no width is
    selected, where the two low bits alone would select one byte. *)
Lemma width_from_low_two_bits_fails :
  ~ width_from_low_two_bits (H := release_headers)
  /\ ~ width_from_low_two_bits (H := debug_headers)
  /\ (let f := {| _buf := Some [0x05; 0xAA];
                  _payload := []; _type := 10;
                  _key_phase := PHASE_UNINITIALIZED;
                  _connection_id := 0; _packet_number := 0; _version := 0;
                  _payload_len := 0; _has_key_phase := false;
                  _has_connection_id := false; _has_version := false |} in
      Z.land 0x05 0x03 = 1
      /\ QUICPacketShortHeader._packet_numberLen (H := release_headers) f 4
         = Ok 0
      /\ QUICPacketShortHeader._packet_numberLen (H := debug_headers) f 4
         = Fault AssertionFailed).
Proof.
  pose (f := {| _buf := Some [0x05; 0xAA];
                _payload := []; _type := 10;
                _key_phase := PHASE_UNINITIALIZED;
                _connection_id := 0; _packet_number := 0; _version := 0;
                _payload_len := 0; _has_key_phase := false;
                _has_connection_id := false; _has_version := false |}).
  repeat split.
  - intros Hall.
    specialize (Hall f 4 0x05 [0xAA] 1%nat eq_refl).
    assert (Hw : QUICPacketShortHeader._packet_numberLen
                   (H := release_headers) f 4 = Ok 1)
      by (apply Hall; [lia | left; split; reflexivity]).
    discriminate Hw.
  - intros Hall.
    specialize (Hall f 4 0x05 [0xAA] 1%nat eq_refl).
    assert (Hw : QUICPacketShortHeader._packet_numberLen
                   (H := debug_headers) f 4 = Ok 1)
      by (apply Hall; [lia | left; split; reflexivity]).
    discriminate Hw.
Qed.

(** The type of a parsed long header is the value of the low seven bits of
    the first byte when that value names a packet type, and is
    UNINITIALIZED, not a failure, for every value past the named types. *)
Theorem long_header_type_masking `{Headers} (f : QUICPacketHeaderFields)
    (b0 : Z) (rest : bytes) :
  _buf f = Some (b0 :: rest) ->
  let value := Z.land b0 0x7F in
  (QUICPacketType.named value -> QUICPacketLongHeader.type f = Ok value)
  /\ (QUICPacketType.UNINITIALIZED <= value ->
      QUICPacketLongHeader.type f = Ok QUICPacketType.UNINITIALIZED).
Proof.
  intros Hbuf value.
  unfold QUICPacketLongHeader.type.
  rewrite Hbuf, byte_at_0. cbn [bind]. fold value.
  unfold QUICPacketType.named.
  destruct (value <? QUICPacketType.UNINITIALIZED) eqn:E.
  - apply Z.ltb_lt in E. split; [reflexivity | lia].
  - apply Z.ltb_ge in E. split; [|reflexivity].
    intros Hnamed. f_equal. lia.
Qed.

Lemma long_header_type_masking_witness :
  let f := {| _buf := Some [0x8A; 1; 2; 3; 4; 5; 6; 7; 8; 0; 0; 0; 1;
                            0xFF; 0; 0; 5];
              _payload := []; _type := 10;
              _key_phase := PHASE_UNINITIALIZED;
              _connection_id := 0; _packet_number := 0; _version := 0;
              _payload_len := 0; _has_key_phase := false;
              _has_connection_id := false; _has_version := false |} in
  QUICPacketLongHeader.type (H := debug_headers) f = Ok 10.
Proof.
  intros f.
  apply (proj2 (long_header_type_masking (H := debug_headers) f 0x8A
                  [1; 2; 3; 4; 5; 6; 7; 8; 0; 0; 0; 1; 0xFF; 0; 0; 5]
                  eq_refl)).
  vm_compute. discriminate.
Defined.

(** A value below the first named type is returned as it is: the code
    compares with UNINITIALIZED alone. *)
Lemma long_header_type_below_named `{Headers} (f : QUICPacketHeaderFields)
    (b0 : Z) (rest : bytes) :
  _buf f = Some (b0 :: rest) ->
  Z.land b0 0x7F < QUICPacketType.VERSION_NEGOTIATION ->
  QUICPacketLongHeader.type f = Ok (Z.land b0 0x7F).
Proof.
  intros Hbuf Hlow.
  unfold QUICPacketLongHeader.type.
  rewrite Hbuf, byte_at_0. cbn [bind].
  unfold QUICPacketType.VERSION_NEGOTIATION in Hlow.
  unfold QUICPacketType.UNINITIALIZED.
  destruct (_ <? _) eqn:E; [reflexivity|].
  apply Z.ltb_ge in E. lia.
Qed.

(** C7. [type] compares the value of the low seven bits of the first byte
    with UNINITIALIZED alone. A value below the first named type, which is
    0 when the types are numbered from 1, is outside the range of the known
    types and yet is returned as it is, in every build, where it was to be
    reported as UNINITIALIZED. *)
Theorem long_header_type_below_range `{Headers} (f : QUICPacketHeaderFields)
    (b0 : Z) (rest : bytes) :
  _buf f = Some (b0 :: rest) ->
  Z.land b0 0x7F < QUICPacketType.VERSION_NEGOTIATION ->
  ~ QUICPacketType.named (Z.land b0 0x7F)
  /\ QUICPacketLongHeader.type f = Ok (Z.land b0 0x7F)
  /\ QUICPacketLongHeader.type f <> Ok QUICPacketType.UNINITIALIZED.
Proof.
  intros Hbuf Hlow.
  rewrite (long_header_type_below_named f b0 rest Hbuf Hlow).
  unfold QUICPacketType.named, QUICPacketType.VERSION_NEGOTIATION,
    QUICPacketType.UNINITIALIZED in *.
  split; [lia|]. split; [reflexivity|].
  intros Heq. apply Ok_inj in Heq. lia.
Qed.

Lemma long_header_type_below_range_witness :
  let f := {| _buf := Some [0x80; 1; 2; 3; 4; 5; 6; 7; 8; 0; 0; 0; 1;
                            0xFF; 0; 0; 5];
              _payload := []; _type := 10;
              _key_phase := PHASE_UNINITIALIZED;
              _connection_id := 0; _packet_number := 0; _version := 0;
              _payload_len := 0; _has_key_phase := false;
              _has_connection_id := false; _has_version := false |} in
  ~ QUICPacketType.named (H := debug_headers) (Z.land 0x80 0x7F)
  /\ QUICPacketLongHeader.type (H := debug_headers) f = Ok (Z.land 0x80 0x7F)
  /\ QUICPacketLongHeader.type (H := debug_headers) f
     <> Ok (QUICPacketType.UNINITIALIZED (H := debug_headers)).
Proof.
  intros f.
  apply (long_header_type_below_range (H := debug_headers) f 0x80
           [1; 2; 3; 4; 5; 6; 7; 8; 0; 0; 0; 1; 0xFF; 0; 0; 5] eq_refl).
  reflexivity.
Defined.

Example long_header_type_of_0x80 :
  QUICPacketLongHeader.type (H := debug_headers)
    {| _buf := Some [0x80; 1; 2; 3; 4; 5; 6; 7; 8; 0; 0; 0; 1; 0xFF; 0; 0; 5];
       _payload := []; _type := 10; _key_phase := PHASE_UNINITIALIZED;
       _connection_id := 0; _packet_number := 0; _version := 0;
       _payload_len := 0; _has_key_phase := false;
       _has_connection_id := false; _has_version := false |}
  = Ok 0
  /\ QUICPacketLongHeader.type (H := release_headers)
       {| _buf := Some [0x80; 1; 2; 3; 4; 5; 6; 7; 8; 0; 0; 0; 1; 0xFF; 0; 0;
                        5];
          _payload := []; _type := 10; _key_phase := PHASE_UNINITIALIZED;
          _connection_id := 0; _packet_number := 0; _version := 0;
          _payload_len := 0; _has_key_phase := false;
          _has_connection_id := false; _has_version := false |}
     = Ok 0
  /\ QUICPacketType.UNINITIALIZED (H := debug_headers) = 10.
Proof. repeat split. Qed.

Lemma checksum_bytes_protected `{Headers} (type : QUICPacketType.t) :
  checksum_bytes type
  = if QUICPacket.is_protected_type type then 0 else FNV1A_HASH_LEN.
Proof.
  unfold checksum_bytes, QUICPacket.is_protected_type.
  destruct (type =? QUICPacketType.ZERO_RTT_PROTECTED),
    (type =? QUICPacketType.ONE_RTT_PROTECTED_KEY_PHASE_0),
    (type =? QUICPacketType.ONE_RTT_PROTECTED_KEY_PHASE_1); reflexivity.
Qed.

Lemma short_header_type_protected `{Headers} (type : QUICPacketType.t) :
  short_header_type type -> QUICPacket.is_protected_type type = true.
Proof.
  unfold QUICPacket.is_protected_type.
  intros [-> | ->]; rewrite Z.eqb_refl; cbn [negb andb];
    rewrite ?andb_false_r; reflexivity.
Qed.

Lemma from_header_sized `{Headers} (h : QUICPacketHeader)
    (type : QUICPacketType.t) (len : Z) (retransmittable : bool)
    (header_length : Z) :
  QUICPacketHeader.length h = Ok header_length ->
  QUICPacketHeader.type h = Ok type ->
  0 <= header_length ->
  0 <= len ->
  header_length + len + checksum_bytes type <= 0xFFFF ->
  exists p,
    QUICPacket.from_header h type len retransmittable = Ok p
    /\ sized p type header_length len
    /\ QUICPacket._header p = h
    /\ QUICPacket._size p = header_length + len + checksum_bytes type
    /\ QUICPacket.is_retransmittable p = retransmittable
    /\ QUICPacket._protected_payload p = None.
Proof.
  intros Hlen Htype Hhl Hpl Hfit.
  unfold QUICPacket.from_header. rewrite Hlen. cbn [bind].
  eexists. split; [reflexivity|].
  rewrite checksum_bytes_protected in Hfit.
  unfold sized, QUICPacket.type, QUICPacket.header_size, QUICPacket.size,
    QUICPacket.payload_size, QUICPacket.type, QUICPacket.is_retransmittable.
  cbn [QUICPacket._header QUICPacket._size QUICPacket._is_retransmittable
       QUICPacket._protected_payload].
  rewrite Htype, Hlen. cbn [bind].
  rewrite checksum_bytes_protected.
  unfold FNV1A_HASH_LEN in *.
  unfold size_t, uint16, wrap.
  change (2 ^ 64) with 18446744073709551616.
  change (2 ^ 16) with 65536.
  destruct (QUICPacket.is_protected_type type); cbn [negb].
  - rewrite (Z.mod_small (header_length + len)) by lia.
    rewrite (Z.mod_small (header_length + len)) by lia.
    replace (header_length + len - header_length) with len by lia.
    rewrite (Z.mod_small len 18446744073709551616) by lia.
    rewrite (Z.mod_small len) by lia.
    repeat split; try reflexivity; try lia; apply f_equal; lia.
  - rewrite (Z.mod_small (header_length + len)) by lia.
    rewrite (Z.mod_small (header_length + len + 8)) by lia.
    rewrite (Z.mod_small (header_length + len + 8)) by lia.
    replace (header_length + len + 8 - header_length) with (len + 8) by lia.
    rewrite (Z.mod_small (len + 8)) by lia.
    replace (len + 8 - 8) with len by lia.
    rewrite (Z.mod_small len 18446744073709551616) by lia.
    rewrite (Z.mod_small len) by lia.
    repeat split; try reflexivity; try lia; apply f_equal; lia.
Qed.

Lemma built_short_header_accessors `{Headers} (type : QUICPacketType.t)
    (f : QUICPacketHeaderFields) :
  short_header_type type ->
  _buf f = None ->
  _key_phase f = key_phase_for type ->
  let h := ShortHeader f
             (QUICPacketShortHeader.packet_number_type_of (_packet_number f)) in
  QUICPacketHeader.type h = Ok type
  /\ QUICPacketHeader.length h
     = Ok (1 + (if _has_connection_id f then 8 else 0)
           + Z.of_nat (packet_number_width (_packet_number f)))
  /\ QUICPacketHeader.key_phase h = Ok (key_phase_for type)
  /\ QUICPacketHeader.connection_id h = Ok (_connection_id f)
  /\ QUICPacketHeader.packet_number h = Ok (_packet_number f)
  /\ QUICPacketHeader.payload h = Ok (_payload f).
Proof.
  intros Htype Hbuf Hphase h.
  destruct (key_phase_for_cases type Htype) as (k & Hk & Ht).
  rewrite Hk in Hphase.
  destruct (built_short_header_fields f
              (QUICPacketShortHeader.packet_number_type_of (_packet_number f))
              k Hbuf Hphase) as (Bk & Bt & _ & Bi & Bn).
  destruct (built_short_header_length f _ _ Hbuf
              (packet_number_width_selector (_packet_number f)))
    as (_ & Blen).
  unfold h.
  cbn [QUICPacketHeader.type QUICPacketHeader.length QUICPacketHeader.key_phase
       QUICPacketHeader.connection_id QUICPacketHeader.packet_number
       QUICPacketHeader.payload].
  rewrite Bt, Blen, Bk, Bi, Bn, Hk, <- Ht.
  unfold QUICPacketShortHeader.payload. rewrite Hbuf.
  repeat split.
Qed.

(** C6. The total size of a built packet is the length of its header plus
    the length of its payload, plus 8 bytes exactly when its type is none of
    ZERO_RTT_PROTECTED, ONE_RTT_PROTECTED_KEY_PHASE_0 and
    ONE_RTT_PROTECTED_KEY_PHASE_1; and [payload_size] is the total size
    minus the header length, minus 8 for the types that are not protected.
    The sizes are reported in 16 bits: the statement is for packets whose
    total size fits them. *)
Theorem packet_size_accounting `{Headers} (type : QUICPacketType.t)
    (connection_id : QUICConnectionId) (packet_number : QUICPacketNumber)
    (version : QUICVersion) (payload : bytes) (len : Z)
    (retransmittable : bool) :
  0 <= len ->
  (17 + len + checksum_bytes type <= 0xFFFF ->
   exists p,
     QUICPacket.build_long type connection_id packet_number version payload
       len retransmittable = Ok p
     /\ sized p type 17 len)
  /\ (short_header_type type ->
      let width := Z.of_nat (packet_number_width packet_number) in
      (1 + width + len + checksum_bytes type <= 0xFFFF ->
       exists p,
         QUICPacket.build_short type packet_number payload len
           retransmittable = Ok p
         /\ sized p type (1 + width) len)
      /\ (1 + 8 + width + len + checksum_bytes type <= 0xFFFF ->
          exists p,
            QUICPacket.build_short_with_connection_id type connection_id
              packet_number payload len retransmittable = Ok p
            /\ sized p type (1 + 8 + width) len)).
Proof.
  intros Hpl. split.
  { intros Hfit.
    destruct (from_header_sized
                (QUICPacketLongHeader.built type connection_id packet_number
                   version payload len)
                type len retransmittable 17 eq_refl eq_refl
                ltac:(lia) Hpl Hfit) as (p & Hp & Hs & _).
    exists p. split; [exact Hp | exact Hs]. }
  intros Htype width.
  destruct (key_phase_of_short_header_type type Htype) as (Hk & _).
  unfold QUICPacket.build_short, QUICPacket.build_short_with_connection_id,
    QUICPacketHeader.build_short,
    QUICPacketHeader.build_short_with_connection_id,
    QUICPacketShortHeader.built,
    QUICPacketShortHeader.built_with_connection_id.
  rewrite Hk. cbn [bind].
  split; intros Hfit.
  all: match goal with
       | |- context [QUICPacket.from_header (ShortHeader ?f _)] =>
           destruct (built_short_header_accessors type f Htype eq_refl
                       eq_refl) as (Bt & Bl & _)
       end.
  all: cbn [_packet_number _has_connection_id QUICPacketHeaderFields_default]
         in Bl.
  all: match goal with
       | |- context [QUICPacket.from_header ?h _ _ _] =>
           destruct (from_header_sized h type len retransmittable _ Bl Bt
                       ltac:(lia) Hpl ltac:(unfold width in Hfit; lia))
             as (p & Hp & Hs & _)
       end.
  all: exists p; split; [exact Hp|].
  - replace (1 + width) with (1 + 0 + width) by lia. exact Hs.
  - exact Hs.
Qed.

Lemma packet_size_accounting_witness :
  (exists p,
     QUICPacket.build_long (H := debug_headers) 2 0xAB 5 0xFF000005
       [1; 2; 3] 3 true = Ok p
     /\ sized (H := debug_headers) p 2 17 3)
  /\ (exists p,
        QUICPacket.build_short_with_connection_id (H := debug_headers) 7 0xAB
          5 [1; 2; 3] 3 true = Ok p
        /\ sized (H := debug_headers) p 7 (1 + 8 + 1) 3).
Proof.
  split.
  - apply (proj1 (packet_size_accounting (H := debug_headers) 2 0xAB 5
                    0xFF000005 [1; 2; 3] 3 true ltac:(lia))).
    vm_compute. discriminate.
  - apply (proj2 (proj2 (packet_size_accounting (H := debug_headers) 7 0xAB 5
                           0xFF000005 [1; 2; 3] 3 true ltac:(lia))
                    (or_introl eq_refl))).
    vm_compute. discriminate.
Defined.

Lemma ink_assert_true `{Headers} : ink_assert true = Ok tt.
Proof. unfold ink_assert. now rewrite andb_false_r. Qed.

Lemma memcpy_all (src : bytes) : memcpy src (Z.of_nat (length src)) = Ok src.
Proof.
  unfold memcpy. rewrite Z.leb_refl, Nat2Z.id, firstn_all. reflexivity.
Qed.

Lemma packet_number_width_le (pn : Z) :
  (1 <= packet_number_width pn <= 4)%nat.
Proof.
  unfold packet_number_width.
  destruct (pn <=? 0xFF); [lia|]. destruct (pn <=? 0xFFFF); lia.
Qed.

(** C2. [create_server_protected_packet] returns a packet exactly when the
    call it makes to the cipher succeeds. The call is made with the payload
    as plaintext, the packet number drawn from the generator, the stored
    header as associated data and key phase 0. When it gives a ciphertext,
    the packet returned stores as the bytes of its header followed by the
    ciphertext and nothing else; when it fails, no packet is returned. The
    payload is one that leaves the packet within the 16 bits of its size. *)
Theorem server_protected_packet `{Headers} (factory : QUICPacketFactory.t)
    (crypto : QUICCrypto) (connection_id : QUICConnectionId)
    (payload : bytes) (len : Z) (retransmittable : bool) :
  QUICPacketFactory._crypto factory = Some crypto ->
  0 <= len <= 0xFFFF - 13 ->
  exists header,
    let packet_number :=
      QUICPacketNumberGenerator._current
        (QUICPacketFactory._packet_number_generator factory) in
    let ad := header ++ repeat 0 (17 - length header) in
    protected_packet_for
      (encrypt crypto 2048 payload len packet_number ad
         (Z.of_nat (length header)) PHASE_0)
      (QUICPacketFactory.create_server_protected_packet factory connection_id
         payload len retransmittable).
Proof.
  intros Hcrypto Hlen.
  set (pn := QUICPacketNumberGenerator._current
               (QUICPacketFactory._packet_number_generator factory)).
  set (type := QUICPacketType.ONE_RTT_PROTECTED_KEY_PHASE_0).
  assert (Htype : short_header_type type) by (now left).
  destruct (key_phase_of_short_header_type type Htype)
    as (Hk & [(Hphase & _) | (_ & Habs)]);
    [|unfold type, QUICPacketType.ONE_RTT_PROTECTED_KEY_PHASE_0,
        QUICPacketType.ONE_RTT_PROTECTED_KEY_PHASE_1 in Habs; lia].
  pose proof (packet_number_width_selector pn) as Hsel.
  pose proof (packet_number_width_le pn) as Hw.
  set (f := {| _buf := _buf QUICPacketHeaderFields_default;
               _payload := payload;
               _type := type;
               _key_phase := key_phase_for type;
               _connection_id := connection_id;
               _packet_number := pn;
               _version := _version QUICPacketHeaderFields_default;
               _payload_len := len;
               _has_key_phase := true;
               _has_connection_id := true;
               _has_version := _has_version QUICPacketHeaderFields_default |}).
  set (h := ShortHeader f (QUICPacketShortHeader.packet_number_type_of pn)).
  destruct (built_short_header_accessors type f Htype eq_refl eq_refl)
    as (Bt & Bl & Bk & _ & Bn & Bp).
  cbn [f _packet_number _has_connection_id _payload] in Bt, Bl, Bk, Bn, Bp.
  fold f h in Bt, Bl, Bk, Bn, Bp.
  assert (Hprot : QUICPacket.is_protected_type type = true)
    by (apply short_header_type_protected; exact Htype).
  assert (Hsum : checksum_bytes type = 0)
    by (rewrite checksum_bytes_protected, Hprot; reflexivity).
  destruct (from_header_sized h type len retransmittable _ Bl Bt
              ltac:(lia) ltac:(lia) ltac:(rewrite Hsum; lia))
    as (p & Hp & (_ & _ & Hsize & Hpsize) & Hh & _ & _ & Hnone).
  rewrite Hsum in Hsize, Hpsize.
  assert (Hstore : QUICPacketHeader.store h
                   = Ok (short_wire true false
                           (QUICPacketShortHeader.packet_number_type_of pn)
                           (packet_number_width pn) connection_id pn)).
  { unfold h. cbn [QUICPacketHeader.store].
    rewrite (store_short_header_any_phase f _ _ Hsel).
    cbn [f _has_connection_id _key_phase _connection_id _packet_number].
    rewrite Hphase. reflexivity. }
  set (header := short_wire true false
                   (QUICPacketShortHeader.packet_number_type_of pn)
                   (packet_number_width pn) connection_id pn) in *.
  assert (Hhl : Z.of_nat (length header)
                = 1 + 8 + Z.of_nat (packet_number_width pn))
    by (unfold header; apply short_wire_length).
  exists header. cbv zeta.
  unfold QUICPacketFactory.create_server_protected_packet,
    QUICPacketFactory.draw, QUICPacketNumberGenerator.next.
  cbn [QUICPacketFactory._crypto QUICPacketFactory._version
       QUICPacketFactory._packet_number_generator].
  fold pn type.
  unfold QUICPacket.build_short_with_connection_id,
    QUICPacketHeader.build_short_with_connection_id,
    QUICPacketShortHeader.built_with_connection_id.
  rewrite Hk. cbn [bind]. fold f h.
  rewrite Hp. cbn [bind].
  unfold QUICPacket.store_header, QUICPacket.payload,
    QUICPacket.packet_number, QUICPacket.key_phase.
  rewrite Hh, Hstore, Hcrypto, Bp, Hpsize, Bn, Bk, Hphase. cbn [bind].
  rewrite Hsize.
  replace (1 + 8 + Z.of_nat (packet_number_width pn) + len + 0
           - (1 + 8 + Z.of_nat (packet_number_width pn)) - 0)
    with len by lia.
  destruct (encrypt crypto 2048 payload len pn
              (header ++ repeat 0 (17 - length header))
              (Z.of_nat (length header)) PHASE_0) as [cipher_txt|];
    cbn [protected_packet_for]; [|eexists; reflexivity].
  eexists _, _, header.
  split; [reflexivity|].
  unfold QUICPacket.store_header, QUICPacket.store, QUICPacket.type,
    QUICPacket.size, QUICPacket.set_protected_payload.
  cbn [QUICPacket._header QUICPacket._size QUICPacket._protected_payload
       QUICPacket._protected_payload_size].
  rewrite Hh, Hstore, Bt. cbn [bind].
  split; [reflexivity|].
  unfold QUICPacket.size in Hsize. rewrite Hsize.
  replace (Z.of_nat (length header) <=?
           1 + 8 + Z.of_nat (packet_number_width pn) + len + 0) with true
    by (symmetry; apply Z.leb_le; lia).
  rewrite ink_assert_true, Hprot. cbn [bind negb].
  rewrite memcpy_all. reflexivity.
Qed.

Lemma server_protected_packet_witness :
  exists header : bytes,
    protected_packet_for (H := debug_headers) (Some [0xDE; 0xAD])
      (QUICPacketFactory.create_server_protected_packet (H := debug_headers)
         (factory_with (cipher_stub (Some [0xDE; 0xAD]))) 0xAB [1; 2; 3] 3
         true).
Proof.
  destruct (server_protected_packet (H := debug_headers)
              (factory_with (cipher_stub (Some [0xDE; 0xAD])))
              (cipher_stub (Some [0xDE; 0xAD])) 0xAB [1; 2; 3] 3 true
              eq_refl ltac:(lia)) as (header & Hcall).
  exists header. exact Hcall.
Defined.

Example server_protected_packet_stored :
  bind (QUICPacketFactory.create_server_protected_packet (H := debug_headers)
          (factory_with (cipher_stub (Some [0xDE; 0xAD]))) 0xAB [1; 2; 3] 3
          true)
    (fun created =>
       match fst created with
       | Some p => QUICPacket.store (H := debug_headers) p
       | None => Ok []
       end)
  = Ok [0x41; 0; 0; 0; 0; 0; 0; 0; 0xAB; 0; 0xDE; 0xAD].
Proof. reflexivity. Qed.

Example server_protected_packet_cipher_fails :
  QUICPacketFactory.create_server_protected_packet (H := debug_headers)
    (factory_with (cipher_stub None)) 0xAB [1; 2; 3] 3 true
  = Ok (None,
        {| QUICPacketFactory._version := 0;
           QUICPacketFactory._crypto := Some (cipher_stub None);
           QUICPacketFactory._packet_number_generator :=
             {| QUICPacketNumberGenerator._current := 1 |} |}).
Proof. reflexivity. Qed.

(** C4, as the code has it. [set_protected_payload] has no guard: it
    records the bytes and the length it is given whatever the type of the
    packet and whether or not a protected payload was set before, the last
    call winning, and changes nothing else of the packet. On a packet whose
    type is not payload-protected the bytes recorded are never stored. *)
Theorem set_protected_payload_records `{Headers} (p : QUICPacket.t)
    (cipher_txt : bytes) (cipher_txt_len : Z) :
  let p' := QUICPacket.set_protected_payload p cipher_txt cipher_txt_len in
  QUICPacket._protected_payload p' = Some cipher_txt
  /\ QUICPacket._protected_payload_size p' = cipher_txt_len
  /\ QUICPacket._header p' = QUICPacket._header p
  /\ QUICPacket.size p' = QUICPacket.size p
  /\ QUICPacket.is_retransmittable p' = QUICPacket.is_retransmittable p
  /\ (forall again again_len,
        QUICPacket.set_protected_payload p' again again_len
        = QUICPacket.set_protected_payload p again again_len)
  /\ (forall type,
        QUICPacket.type p = Ok type ->
        QUICPacket.is_protected_type type = false ->
        QUICPacket.store p' = QUICPacket.store p).
Proof.
  cbv zeta. repeat split.
  intros type Htype Hplain.
  unfold QUICPacket.store, QUICPacket.type, QUICPacket.size,
    QUICPacket.payload, QUICPacket.payload_size, QUICPacket.type in *.
  cbn [QUICPacket.set_protected_payload QUICPacket._header QUICPacket._size].
  destruct (QUICPacketHeader.store (QUICPacket._header p)); [|reflexivity].
  cbn [bind]. destruct (ink_assert _); [|reflexivity]. cbn [bind].
  rewrite Htype. cbn [bind]. rewrite Hplain. reflexivity.
Qed.

(** The bytes given for a client initial packet are recorded, and a second
    call on a protected packet replaces the bytes of the first. *)
Lemma set_protected_payload_not_guarded :
  ~ set_protected_payload_guarded (H := debug_headers)
  /\ ~ set_protected_payload_guarded (H := release_headers)
  /\ (exists p,
        client_initial_sample (H := debug_headers) = Ok p
        /\ QUICPacket._protected_payload p = None
        /\ QUICPacket._protected_payload
             (QUICPacket.set_protected_payload p [7; 8; 9] 3)
           = Some [7; 8; 9]
        /\ QUICPacket._protected_payload
             (QUICPacket.set_protected_payload
                (QUICPacket.set_protected_payload p [7; 8; 9] 3) [6] 1)
           = Some [6]).
Proof.
  split; [|split].
  - intros Hguard.
    assert (Hsample : exists p,
               client_initial_sample (H := debug_headers) = Ok p
               /\ QUICPacket.type (H := debug_headers) p = Ok 2
               /\ QUICPacket._protected_payload p = None)
      by (eexists; repeat split).
    destruct Hsample as (p & _ & Htype & Hnone).
    specialize (Hguard p 2 [7; 8; 9] 3 Htype (or_introl eq_refl)).
    rewrite Hnone in Hguard. discriminate Hguard.
  - intros Hguard.
    assert (Hsample : exists p,
               client_initial_sample (H := release_headers) = Ok p
               /\ QUICPacket.type (H := release_headers) p = Ok 2
               /\ QUICPacket._protected_payload p = None)
      by (eexists; repeat split).
    destruct Hsample as (p & _ & Htype & Hnone).
    specialize (Hguard p 2 [7; 8; 9] 3 Htype (or_introl eq_refl)).
    rewrite Hnone in Hguard. discriminate Hguard.
  - eexists. split; [reflexivity|]. repeat split.
Qed.

Lemma next_n_values (n : nat) (g : QUICPacketNumberGenerator.t) :
  0 <= QUICPacketNumberGenerator._current g ->
  QUICPacketNumberGenerator._current g + Z.of_nat n <= 2 ^ 64 ->
  fst (QUICPacketNumberGenerator.next_n n g)
  = map (fun k => QUICPacketNumberGenerator._current g + Z.of_nat k)
      (seq 0 n).
Proof.
  revert g. induction n as [|k IH]; intros g Hlo Hhi; [reflexivity|].
  cbn [QUICPacketNumberGenerator.next_n QUICPacketNumberGenerator.next].
  set (g1 := {| QUICPacketNumberGenerator._current :=
                  uint64 (QUICPacketNumberGenerator._current g + 1) |}).
  destruct k as [|k'].
  { cbn [QUICPacketNumberGenerator.next_n fst seq map].
    now rewrite Z.add_0_r. }
  assert (Hg1 : QUICPacketNumberGenerator._current g1
                = QUICPacketNumberGenerator._current g + 1).
  { unfold g1. cbn [QUICPacketNumberGenerator._current].
    unfold uint64, wrap. apply Z.mod_small.
    change (2 ^ 64) with 18446744073709551616 in *. lia. }
  specialize (IH g1 ltac:(lia) ltac:(lia)).
  remember (S k') as m eqn:Em.
  destruct (QUICPacketNumberGenerator.next_n m g1) as (vs & g2).
  cbn [fst] in *. rewrite IH, Hg1.
  change (seq 0 (S m)) with (0%nat :: seq 1 m).
  rewrite <- seq_shift. cbn [map]. rewrite map_map, Z.add_0_r. f_equal.
  apply map_ext. intros a. lia.
Qed.

Lemma NoDup_map_injective {A B : Type} (f : A -> B) (l : list A) :
  (forall a b, f a = f b -> a = b) -> NoDup l -> NoDup (map f l).
Proof.
  intros Hinj. induction 1 as [|x l Hx Hl IH]; cbn [map]; constructor.
  - rewrite in_map_iff. intros (y & Hy & Hin).
    apply Hinj in Hy. now subst.
  - exact IH.
Qed.

(** C10. Each call of [next] returns the current value of the counter and
    leaves the counter one higher, so the first [n] calls on a fresh
    generator return 0, 1, ..., n-1 in that order, with no value repeated
    and none left out. The counter has 64 bits: the statement is for the
    first 2^64 calls. *)
Theorem packet_numbers_consecutive (n : nat) :
  Z.of_nat n <= 2 ^ 64 ->
  fst (QUICPacketNumberGenerator.next_n n QUICPacketNumberGenerator.fresh)
  = map Z.of_nat (seq 0 n)
  /\ NoDup (fst (QUICPacketNumberGenerator.next_n n
                   QUICPacketNumberGenerator.fresh))
  /\ (forall g,
        fst (QUICPacketNumberGenerator.next g)
        = QUICPacketNumberGenerator._current g
        /\ QUICPacketNumberGenerator._current
             (snd (QUICPacketNumberGenerator.next g))
           = uint64 (QUICPacketNumberGenerator._current g + 1))
  /\ (forall g,
        0 <= QUICPacketNumberGenerator._current g < 2 ^ 64 - 1 ->
        QUICPacketNumberGenerator._current
          (snd (QUICPacketNumberGenerator.next g))
        = QUICPacketNumberGenerator._current g + 1).
Proof.
  intros Hn.
  pose proof (next_n_values n QUICPacketNumberGenerator.fresh
                ltac:(reflexivity) Hn) as Hvals.
  cbn [QUICPacketNumberGenerator.fresh QUICPacketNumberGenerator._current]
    in Hvals.
  assert (Hlist : fst (QUICPacketNumberGenerator.next_n n
                         QUICPacketNumberGenerator.fresh)
                  = map Z.of_nat (seq 0 n))
    by (rewrite Hvals; apply map_ext; intros a; lia).
  split; [exact Hlist|].
  split.
  { rewrite Hlist. apply NoDup_map_injective.
    - intros a b. apply Nat2Z.inj.
    - apply seq_NoDup. }
  split.
  - intros g. split; reflexivity.
  - intros g Hg. cbn [QUICPacketNumberGenerator.next snd
                      QUICPacketNumberGenerator._current].
    unfold uint64, wrap. apply Z.mod_small.
    change (2 ^ 64) with 18446744073709551616 in *. lia.
Qed.

Lemma packet_numbers_consecutive_witness :
  fst (QUICPacketNumberGenerator.next_n 5 QUICPacketNumberGenerator.fresh)
  = [0; 1; 2; 3; 4].
Proof.
  apply (proj1 (packet_numbers_consecutive 5 ltac:(vm_compute; discriminate))).
Defined.

Lemma fold_left_app_flat_map {A B : Type} (g : A -> list B) (l : list A)
    (acc : list B) :
  fold_left (fun p v => p ++ g v) l acc = acc ++ flat_map g l.
Proof.
  revert acc. induction l as [|a l IH]; intros acc; cbn [fold_left flat_map].
  - now rewrite app_nil_r.
  - now rewrite IH, app_assoc.
Qed.

Lemma written_versions_length (versions : list QUICVersion) :
  length (flat_map QUICTypeUtil.write_QUICVersion versions)
  = (4 * length versions)%nat.
Proof.
  induction versions as [|v vs IH]; [reflexivity|].
  cbn [flat_map]. rewrite length_app, IH.
  unfold QUICTypeUtil.write_QUICVersion.
  rewrite write_uint_as_nbytes_length. cbn [length]. lia.
Qed.

Lemma written_versions_chunk (versions : list QUICVersion) (i : nat) :
  (i < length versions)%nat ->
  version_chunk (flat_map QUICTypeUtil.write_QUICVersion versions) i
  = QUICTypeUtil.write_QUICVersion (nth i versions 0).
Proof.
  unfold version_chunk.
  revert i. induction versions as [|v vs IH]; intros i Hi;
    [cbn [length] in Hi; lia|].
  cbn [flat_map].
  assert (Hlen : length (QUICTypeUtil.write_QUICVersion v) = 4%nat)
    by apply write_uint_as_nbytes_length.
  destruct i as [|j].
  - cbn [nth]. rewrite Nat.mul_0_r. cbn [skipn].
    rewrite firstn_app, Hlen, Nat.sub_diag, firstn_O, app_nil_r.
    rewrite <- Hlen at 1. apply firstn_all.
  - cbn [nth].
    rewrite skipn_app, Hlen.
    rewrite (skipn_all2 (QUICTypeUtil.write_QUICVersion v))
      by (rewrite Hlen; lia).
    replace (4 * S j - 4)%nat with (4 * j)%nat by lia.
    cbn [app]. apply IH. cbn [length] in Hi. lia.
Qed.

Lemma version_negotiation_not_protected `{Headers} :
  QUICPacket.is_protected_type QUICPacketType.VERSION_NEGOTIATION = false
  /\ checksum_bytes QUICPacketType.VERSION_NEGOTIATION = 8.
Proof.
  unfold checksum_bytes, QUICPacket.is_protected_type,
    QUICPacketType.VERSION_NEGOTIATION, QUICPacketType.ZERO_RTT_PROTECTED,
    QUICPacketType.ONE_RTT_PROTECTED_KEY_PHASE_0,
    QUICPacketType.ONE_RTT_PROTECTED_KEY_PHASE_1.
  replace (QUICPacketType_first =? QUICPacketType_first + 5) with false
    by (symmetry; apply Z.eqb_neq; lia).
  replace (QUICPacketType_first =? QUICPacketType_first + 6) with false
    by (symmetry; apply Z.eqb_neq; lia).
  replace (QUICPacketType_first =? QUICPacketType_first + 7) with false
    by (symmetry; apply Z.eqb_neq; lia).
  split; reflexivity.
Qed.

(** C9. In reply to a client packet with connection id C, packet number N
    and version V, [create_version_negotiation_packet] returns a packet
    that is not retransmittable, of type VERSION_NEGOTIATION, with
    connection id C, packet number N and version V, whose payload is four
    bytes for each supported version: chunk [i] of it is supported version
    [i], in the order of the table. The table is one whose packet fits the
    16 bits of a packet size. *)
Theorem version_negotiation_packet `{Headers} (client : QUICPacket.t)
    (connection_id : QUICConnectionId) (packet_number : QUICPacketNumber)
    (version : QUICVersion) :
  QUICPacket.connection_id client = Ok connection_id ->
  QUICPacket.packet_number client = Ok packet_number ->
  QUICPacket.version client = Ok version ->
  17 + 4 * Z.of_nat (length QUIC_SUPPORTED_VERSIONS) + 8 <= 0xFFFF ->
  exists q,
    QUICPacketFactory.create_version_negotiation_packet client = Ok q
    /\ negotiates q connection_id packet_number version.
Proof.
  intros Hcid Hpn Hver Hfit.
  destruct version_negotiation_not_protected as (_ & Hsum).
  unfold QUICPacketFactory.create_version_negotiation_packet.
  rewrite Hcid, Hpn, Hver. cbn [bind].
  rewrite fold_left_app_flat_map. cbn [app].
  unfold size_t, wrap.
  rewrite Z.mod_small
    by (change (2 ^ 64) with 18446744073709551616; lia).
  unfold QUICPacket.build_long, QUICPacketHeader.build_long. cbn [bind].
  match goal with
  | |- context [QUICPacket.from_header ?h ?t ?l ?r] =>
      destruct (from_header_sized h t l r 17 eq_refl eq_refl ltac:(lia)
                  ltac:(lia) ltac:(rewrite Hsum; lia))
        as (q & Hq & (Ht & _ & Hsize & Hpsize) & Hh & _ & Hr & _)
  end.
  exists q. split; [exact Hq|].
  unfold negotiates, QUICPacket.connection_id, QUICPacket.packet_number,
    QUICPacket.version, QUICPacket.payload.
  rewrite Hh, Hr, Ht, Hpsize, Hsize, Hsum.
  repeat split.
  exists (flat_map QUICTypeUtil.write_QUICVersion QUIC_SUPPORTED_VERSIONS).
  split; [reflexivity|].
  split; [rewrite written_versions_length, Nat2Z.inj_mul; reflexivity|].
  split; [f_equal; lia|].
  intros i Hi. apply written_versions_chunk. exact Hi.
Qed.

Lemma version_negotiation_packet_witness :
  exists p q,
    client_initial_sample (H := debug_headers) = Ok p
    /\ QUICPacketFactory.create_version_negotiation_packet
         (H := debug_headers) p = Ok q
    /\ negotiates (H := debug_headers) q 0xAB 0 0xFF000005.
Proof.
  assert (Hsample : exists p,
             client_initial_sample (H := debug_headers) = Ok p
             /\ QUICPacket.connection_id p = Ok 0xAB
             /\ QUICPacket.packet_number (H := debug_headers) p = Ok 0
             /\ QUICPacket.version p = Ok 0xFF000005)
    by (eexists; repeat split).
  destruct Hsample as (p & Hp & Hcid & Hpn & Hver).
  destruct (version_negotiation_packet (H := debug_headers) p 0xAB 0
              0xFF000005 Hcid Hpn Hver ltac:(vm_compute; discriminate))
    as (q & Hq & Hneg).
  exists p, q. split; [exact Hp|]. split; [exact Hq | exact Hneg].
Defined.

(** A parsed short header reads its connection id only when the flag byte
    announces one: with bit 6 clear the release assertion stops the call, in
    every build; with bit 6 set the id is the eight bytes after the flag
    byte, read big-endian. *)
Theorem parsed_short_header_connection_id (f : QUICPacketHeaderFields)
    (flag : Z) (rest : bytes) :
  _buf f = Some (flag :: rest) ->
  (Z.land flag 0x40 = 0 ->
   QUICPacketShortHeader.has_connection_id f = Ok false
   /\ QUICPacketShortHeader.connection_id f = Fault AssertionFailed)
  /\ (Z.land flag 0x40 <> 0 ->
      QUICPacketShortHeader.has_connection_id f = Ok true
      /\ QUICPacketShortHeader.connection_id f
         = QUICTypeUtil.read_nbytes_as_uint (flag :: rest) 1 8).
Proof.
  intros Hbuf.
  unfold QUICPacketShortHeader.connection_id,
    QUICPacketShortHeader.has_connection_id.
  rewrite Hbuf, byte_at_0. cbn [bind].
  split; intros Hbit.
  - rewrite Hbit. split; reflexivity.
  - apply Z.eqb_neq in Hbit. rewrite Hbit. split; reflexivity.
Qed.

Lemma parsed_short_header_connection_id_witness :
  let f := {| _buf := Some [0x01; 0x2A];
              _payload := []; _type := 10;
              _key_phase := PHASE_UNINITIALIZED;
              _connection_id := 0; _packet_number := 0; _version := 0;
              _payload_len := 0; _has_key_phase := false;
              _has_connection_id := false; _has_version := false |} in
  QUICPacketShortHeader.has_connection_id f = Ok false
  /\ QUICPacketShortHeader.connection_id f = Fault AssertionFailed.
Proof.
  intros f.
  apply (proj1 (parsed_short_header_connection_id f 0x01 [0x2A] eq_refl)).
  reflexivity.
Defined.

(** The type of a parsed short header follows bit 5 of the flag byte alone:
    it is one of the two 1-RTT types and the key phase is never
    PHASE_UNINITIALIZED, so neither [type] nor [key_phase] fails on a parsed
    short header, whatever the other bits are. *)
Theorem parsed_short_header_type `{Headers} (f : QUICPacketHeaderFields)
    (flag : Z) (rest : bytes) :
  _buf f = Some (flag :: rest) ->
  let phase_1 := negb (Z.land flag 0x20 =? 0) in
  QUICPacketShortHeader.key_phase f
  = Ok (if phase_1 then PHASE_1 else PHASE_0)
  /\ QUICPacketShortHeader.type f
     = Ok (if phase_1 then QUICPacketType.ONE_RTT_PROTECTED_KEY_PHASE_1
           else QUICPacketType.ONE_RTT_PROTECTED_KEY_PHASE_0).
Proof.
  intros Hbuf phase_1.
  assert (Hk : QUICPacketShortHeader.key_phase f
               = Ok (if phase_1 then PHASE_1 else PHASE_0)).
  { unfold QUICPacketShortHeader.key_phase. rewrite Hbuf, byte_at_0.
    cbn [bind]. fold phase_1. destruct phase_1; reflexivity. }
  split; [exact Hk|].
  apply short_type_of_key_phase. exact Hk.
Qed.

Lemma parsed_short_header_type_witness :
  let f := {| _buf := Some [0x3F; 0x2A];
              _payload := []; _type := 10;
              _key_phase := PHASE_UNINITIALIZED;
              _connection_id := 0; _packet_number := 0; _version := 0;
              _payload_len := 0; _has_key_phase := false;
              _has_connection_id := false; _has_version := false |} in
  QUICPacketShortHeader.key_phase f = Ok PHASE_1
  /\ QUICPacketShortHeader.type (H := debug_headers) f = Ok 8.
Proof.
  intros f.
  exact (parsed_short_header_type (H := debug_headers) f 0x3F [0x2A] eq_refl).
Defined.

Lemma skipn_stored (wire rest : bytes) (n : Z) :
  Z.of_nat (length wire) = n -> skipn (Z.to_nat n) (wire ++ rest) = rest.
Proof.
  intros <-. rewrite Nat2Z.id, skipn_app, skipn_all, Nat.sub_diag.
  reflexivity.
Qed.

Lemma packet_number_width_truncation (pn : Z) :
  0 <= pn < 2 ^ 64 ->
  pn mod 2 ^ (8 * Z.of_nat (packet_number_width pn)) = pn mod 2 ^ 32.
Proof.
  intros Hpn. unfold packet_number_width.
  destruct (pn <=? 0xFF) eqn:E1.
  { apply Z.leb_le in E1. rewrite !Z.mod_small; [reflexivity | | ].
    - change (2 ^ 32) with 4294967296. lia.
    - rewrite pow2_bytes_1. lia. }
  destruct (pn <=? 0xFFFF) eqn:E2.
  { apply Z.leb_le in E2. rewrite !Z.mod_small; [reflexivity | | ].
    - change (2 ^ 32) with 4294967296. lia.
    - rewrite pow2_bytes_2. lia. }
  now rewrite pow2_bytes_4.
Qed.

Lemma short_header_reloaded `{Headers} (f : QUICPacketHeaderFields)
    (rest : bytes) :
  _buf f = None ->
  let h := ShortHeader f
             (QUICPacketShortHeader.packet_number_type_of (_packet_number f))
  in
  exists h',
    reloaded h rest h'
    /\ QUICPacketHeader.packet_number h'
       = Ok (_packet_number f
             mod 2 ^ (8 * Z.of_nat (packet_number_width (_packet_number f))))
    /\ QUICPacketHeader.length h' = QUICPacketHeader.length h
    /\ QUICPacketHeader.length h
       = Ok (1 + (if _has_connection_id f then 8 else 0)
             + Z.of_nat (packet_number_width (_packet_number f)))
    /\ QUICPacketHeader.payload h' = Ok rest.
Proof.
  intros Hbuf h.
  pose proof (packet_number_width_selector (_packet_number f)) as Hsel.
  set (selector := QUICPacketShortHeader.packet_number_type_of
                     (_packet_number f)) in *.
  set (width := packet_number_width (_packet_number f)) in *.
  set (wire := short_wire (_has_connection_id f)
                 (phase_1_bit (_key_phase f)) selector width
                 (_connection_id f) (_packet_number f)).
  destruct (built_short_header_length f selector width Hbuf Hsel)
    as (_ & Blen).
  destruct (parsed_short_header_fields
              (match QUICPacketShortHeader.parsed (wire ++ rest) with
               | ShortHeader g _ => g | LongHeader g => g end)
              QUICPacketShortHeaderType.UNINITIALIZED
              (_has_connection_id f) (phase_1_bit (_key_phase f)) selector
              width (_connection_id f) (_packet_number f) rest Hsel eq_refl)
    as (Plong & _ & _ & _ & Pn & _ & Plen).
  fold wire in Plong.
  cbn [QUICPacketShortHeader.parsed] in Pn, Plen. fold wire in Pn, Plen.
  exists (QUICPacketShortHeader.parsed (wire ++ rest)).
  split.
  { exists wire. split; [apply store_short_header_any_phase; exact Hsel|].
    unfold QUICPacketHeader.load. rewrite Plong. reflexivity. }
  unfold h.
  cbn [QUICPacketHeader.packet_number QUICPacketHeader.length
       QUICPacketHeader.payload QUICPacketShortHeader.parsed].
  rewrite Pn, Plen, Blen.
  repeat split.
  unfold QUICPacketShortHeader.payload. cbn [_buf].
  rewrite Plen. cbn [bind]. apply f_equal.
  apply skipn_stored. unfold wire. apply short_wire_length.
Qed.

Lemma long_header_reloaded `{Headers} (type : QUICPacketType.t)
    (connection_id : QUICConnectionId) (packet_number : QUICPacketNumber)
    (version : QUICVersion) (payload rest : bytes) (len : Z) :
  0 <= type < 128 ->
  let h := QUICPacketLongHeader.built type connection_id packet_number
             version payload len in
  exists h',
    reloaded h rest h'
    /\ QUICPacketHeader.packet_number h' = Ok (packet_number mod 2 ^ 32)
    /\ QUICPacketHeader.length h' = QUICPacketHeader.length h
    /\ QUICPacketHeader.length h = Ok 17
    /\ QUICPacketHeader.payload h' = Ok rest.
Proof.
  intros Hr h.
  destruct (long_flag_byte type Hr) as (_ & Hhigh & _).
  set (wire := [0x80 + type]
                 ++ QUICTypeUtil.write_uint_as_nbytes connection_id 8
                 ++ QUICTypeUtil.write_uint_as_nbytes packet_number 4
                 ++ QUICTypeUtil.write_uint_as_nbytes version 4).
  exists (QUICPacketLongHeader.parsed (wire ++ rest)).
  split.
  { exists wire. split; [apply store_long_built; exact Hr|].
    unfold QUICPacketHeader.load, QUICTypeUtil.hasLongHeader, wire.
    cbn [app]. rewrite byte_at_0. cbn [bind]. rewrite Hhigh. reflexivity. }
  cbn [QUICPacketHeader.packet_number QUICPacketHeader.length
       QUICPacketHeader.payload QUICPacketLongHeader.parsed h
       QUICPacketLongHeader.built].
  unfold QUICPacketLongHeader.packet_number, QUICPacketLongHeader.payload,
    QUICTypeUtil.read_QUICPacketNumber, OFFSET_PACKET_NUMBER, OFFSET_PAYLOAD.
  cbn [_buf].
  repeat split.
  unfold wire. rewrite <- !app_assoc. rewrite read_field_9.
  now rewrite pow2_bytes_4.
Qed.

(** A stored header keeps the low 32 bits of the packet number and no more:
    whatever 64-bit packet number a header is built with, in the long form
    or in either short form, the header loaded from the bytes stored reports
    the packet number modulo 2^32. *)
Theorem stored_packet_number_is_truncated `{Headers}
    (type : QUICPacketType.t) (connection_id : QUICConnectionId)
    (packet_number : QUICPacketNumber) (version : QUICVersion)
    (payload rest : bytes) (len : Z) :
  0 <= packet_number < 2 ^ 64 ->
  (0 <= type < 128 ->
   exists h',
     reloaded
       (QUICPacketLongHeader.built type connection_id packet_number version
          payload len) rest h'
     /\ QUICPacketHeader.packet_number h' = Ok (packet_number mod 2 ^ 32))
  /\ (short_header_buildable type ->
      (exists h h',
         QUICPacketHeader.build_short type packet_number payload len = Ok h
         /\ reloaded h rest h'
         /\ QUICPacketHeader.packet_number h'
            = Ok (packet_number mod 2 ^ 32))
      /\ (exists h h',
            QUICPacketHeader.build_short_with_connection_id type
              connection_id packet_number payload len = Ok h
            /\ reloaded h rest h'
            /\ QUICPacketHeader.packet_number h'
               = Ok (packet_number mod 2 ^ 32))).
Proof.
  intros Hpn. split.
  { intros Hr.
    destruct (long_header_reloaded type connection_id packet_number version
                payload rest len Hr) as (h' & Hre & Hn & _).
    exists h'. split; assumption. }
  intros Hbuild.
  destruct (short_header_built type Hbuild) as (key_phase & Hk).
  unfold QUICPacketHeader.build_short,
    QUICPacketHeader.build_short_with_connection_id,
    QUICPacketShortHeader.built,
    QUICPacketShortHeader.built_with_connection_id.
  rewrite Hk. cbn [bind].
  split; eexists.
  all: match goal with
       | |- exists h', Ok (ShortHeader ?f _) = Ok _ /\ _ =>
           destruct (short_header_reloaded f rest eq_refl)
             as (h' & Hre & Hn & _);
           cbn [_packet_number] in Hre, Hn;
           rewrite packet_number_width_truncation in Hn by exact Hpn;
           exists h'; split; [reflexivity|]; split; [exact Hre | exact Hn]
       end.
Qed.

Lemma stored_packet_number_is_truncated_witness :
  exists h',
    reloaded (H := debug_headers)
      (QUICPacketLongHeader.built (H := debug_headers) 2 0xAB 0x100000001
         0xFF000005 [] 0) [] h'
    /\ QUICPacketHeader.packet_number (H := debug_headers) h'
       = Ok (0x100000001 mod 2 ^ 32).
Proof.
  apply (proj1 (stored_packet_number_is_truncated (H := debug_headers) 2 0xAB
                  0x100000001 0xFF000005 [] [] 0 ltac:(lia))).
  lia.
Defined.

(** The header loaded from a stored header has the length of the header
    that was stored, and its payload is what follows the stored bytes on the
    wire, in the long form and in both short forms. *)
Theorem reloaded_header_locates_payload `{Headers} (type : QUICPacketType.t)
    (connection_id : QUICConnectionId) (packet_number : QUICPacketNumber)
    (version : QUICVersion) (payload rest : bytes) (len : Z) :
  (0 <= type < 128 ->
   let h := QUICPacketLongHeader.built type connection_id packet_number
              version payload len in
   exists h',
     reloaded h rest h'
     /\ QUICPacketHeader.length h' = QUICPacketHeader.length h
     /\ QUICPacketHeader.payload h' = Ok rest)
  /\ (short_header_buildable type ->
      (exists h h',
         QUICPacketHeader.build_short type packet_number payload len = Ok h
         /\ reloaded h rest h'
         /\ QUICPacketHeader.length h' = QUICPacketHeader.length h
         /\ QUICPacketHeader.payload h' = Ok rest)
      /\ (exists h h',
            QUICPacketHeader.build_short_with_connection_id type
              connection_id packet_number payload len = Ok h
            /\ reloaded h rest h'
            /\ QUICPacketHeader.length h' = QUICPacketHeader.length h
            /\ QUICPacketHeader.payload h' = Ok rest)).
Proof.
  split.
  { intros Hr h.
    destruct (long_header_reloaded type connection_id packet_number version
                payload rest len Hr) as (h' & Hre & _ & Hl & _ & Hp).
    exists h'. repeat split; assumption. }
  intros Hbuild.
  destruct (short_header_built type Hbuild) as (key_phase & Hk).
  unfold QUICPacketHeader.build_short,
    QUICPacketHeader.build_short_with_connection_id,
    QUICPacketShortHeader.built,
    QUICPacketShortHeader.built_with_connection_id.
  rewrite Hk. cbn [bind].
  split; eexists.
  all: match goal with
       | |- exists h', Ok (ShortHeader ?f _) = Ok _ /\ _ =>
           destruct (short_header_reloaded f rest eq_refl)
             as (h' & Hre & _ & Hl & _ & Hp);
           cbn [_packet_number] in Hre, Hl;
           exists h'; split; [reflexivity|]; repeat split; assumption
       end.
Qed.

Lemma reloaded_header_locates_payload_witness :
  exists h h',
    QUICPacketHeader.build_short_with_connection_id (H := debug_headers) 7
      0xAB 0x1234 [] 0 = Ok h
    /\ reloaded (H := debug_headers) h [9; 9; 9] h'
    /\ QUICPacketHeader.length (H := debug_headers) h'
       = QUICPacketHeader.length (H := debug_headers) h
    /\ QUICPacketHeader.payload (H := debug_headers) h' = Ok [9; 9; 9].
Proof.
  apply (proj2 (reloaded_header_locates_payload (H := debug_headers) 7 0xAB
                  0x1234 0 [] [9; 9; 9] 0)).
  left. left. reflexivity.
Defined.

Lemma memcpy_prefix (src tail : bytes) :
  memcpy (src ++ tail) (Z.of_nat (length src)) = Ok src.
Proof.
  unfold memcpy. rewrite length_app, Nat2Z.id.
  replace (Z.of_nat (length src) <=? Z.of_nat (length src + length tail))
    with true by (symmetry; apply Z.leb_le; lia).
  rewrite firstn_app, firstn_all, Nat.sub_diag, firstn_O, app_nil_r.
  reflexivity.
Qed.

Lemma memcpy_firstn (src : bytes) (n : Z) :
  0 <= n <= Z.of_nat (length src) ->
  memcpy src n = Ok (firstn (Z.to_nat n) src)
  /\ Z.of_nat (length (firstn (Z.to_nat n) src)) = n.
Proof.
  intros Hn. unfold memcpy.
  replace (n <=? Z.of_nat (length src)) with true
    by (symmetry; apply Z.leb_le; lia).
  split; [reflexivity|]. rewrite length_firstn. lia.
Qed.

(** The checksum of all of [data] is eight bytes, and is the checksum of
    the first [length data] bytes of any buffer that starts with [data]. *)
Lemma fnv1a_prefix (data tail : bytes) :
  exists hash,
    fnv1a data (Z.of_nat (length data)) = Ok hash
    /\ fnv1a (data ++ tail) (Z.of_nat (length data)) = Ok hash
    /\ length hash = 8%nat.
Proof.
  unfold fnv1a. rewrite memcpy_all, memcpy_prefix. cbn [bind].
  eexists. split; [reflexivity|]. split; [reflexivity|].
  rewrite length_rev. apply write_uint_as_nbytes_length.
Qed.

Lemma long_header_stored_length (f : QUICPacketHeaderFields) :
  exists wire,
    QUICPacketLongHeader.store f = Ok wire /\ length wire = 17%nat.
Proof.
  unfold QUICPacketLongHeader.store. eexists. split; [reflexivity|].
  rewrite !length_app, !write_uint_as_nbytes_length. reflexivity.
Qed.

Lemma unprotected_packet_stored `{Headers} (type : QUICPacketType.t)
    (connection_id : QUICConnectionId) (packet_number : QUICPacketNumber)
    (version : QUICVersion) (payload : bytes) (len : Z)
    (retransmittable : bool) :
  checksum_bytes type = 8 ->
  0 <= len <= Z.of_nat (length payload) ->
  17 + len + 8 <= 0xFFFF ->
  exists p stored,
    QUICPacket.build_long type connection_id packet_number version payload
      len retransmittable = Ok p
    /\ stores_checksummed p (firstn (Z.to_nat len) payload) stored
    /\ Z.of_nat (length stored) = 17 + len + 8
    /\ QUICPacket._header p
       = QUICPacketLongHeader.built type connection_id packet_number version
           payload len
    /\ QUICPacket.size p = 17 + len + 8.
Proof.
  intros Hsum Hlen Hfit.
  set (h := QUICPacketLongHeader.built type connection_id packet_number
              version payload len).
  destruct (from_header_sized h type len retransmittable 17 eq_refl eq_refl
              ltac:(lia) ltac:(lia) ltac:(rewrite Hsum; lia))
    as (p & Hp & (Ht & _ & Hsize & Hpsize) & Hh & _ & _ & _).
  rewrite Hsum in Hsize, Hpsize.
  assert (Hplain : QUICPacket.is_protected_type type = false).
  { rewrite checksum_bytes_protected in Hsum.
    destruct (QUICPacket.is_protected_type type);
      [discriminate Hsum | reflexivity]. }
  destruct (memcpy_firstn payload len Hlen) as (Hcopy & Hcopied).
  set (copied := firstn (Z.to_nat len) payload) in *.
  assert (Hstored17 : exists header,
             QUICPacketHeader.store h = Ok header
             /\ Z.of_nat (length header) = 17).
  { unfold h, QUICPacketLongHeader.built. cbn [QUICPacketHeader.store].
    match goal with
    | |- context [QUICPacketLongHeader.store ?f] =>
        destruct (long_header_stored_length f) as (wire & Hw & Hl)
    end.
    exists wire. split; [exact Hw | rewrite Hl; reflexivity]. }
  destruct Hstored17 as (header & Hstore & Hheader).
  destruct (fnv1a_prefix (header ++ copied) []) as (hash & Hhash & _ & H8).
  assert (Hstored : Z.of_nat (length (header ++ copied ++ hash))
                    = 17 + len + 8)
    by (rewrite !length_app, H8; lia).
  exists p, (header ++ copied ++ hash).
  split; [exact Hp|]. split; [|repeat split; assumption].
  exists header, hash.
  unfold QUICPacket.store_header, QUICPacket.store, QUICPacket.payload,
    QUICPacket.type.
  unfold QUICPacket.type in Ht. rewrite Hh in Ht.
  rewrite Hh, Hstore, Hpsize, Hsize. cbn [bind].
  replace (Z.of_nat (length header) <=? 17 + len + 8) with true
    by (symmetry; apply Z.leb_le; lia).
  rewrite ink_assert_true. cbn [bind].
  rewrite Ht. cbn [bind]. rewrite Hplain. cbn [negb].
  unfold h at 1. cbn [QUICPacketHeader.payload QUICPacketLongHeader.built
                      QUICPacketLongHeader.payload _buf _payload
                      QUICPacketHeaderFields_default bind].
  replace (17 + len + 8 - 17 - 8) with len by lia.
  rewrite Hcopy. cbn [bind]. rewrite Hhash. cbn [bind].
  rewrite <- app_assoc.
  repeat split; assumption.
Qed.

(** A packet built with a long header and a type that is not
    payload-protected stores as its 17 header bytes, the first [len] bytes
    of its payload and the 8 bytes of the checksum computed over both, and
    the number of bytes stored is its [size]. The payload buffer holds at
    least [len] bytes and the packet fits the 16 bits of its size. *)
Theorem unprotected_packet_store `{Headers} (type : QUICPacketType.t)
    (connection_id : QUICConnectionId) (packet_number : QUICPacketNumber)
    (version : QUICVersion) (payload : bytes) (len : Z)
    (retransmittable : bool) :
  checksum_bytes type = 8 ->
  0 <= len <= Z.of_nat (length payload) ->
  17 + len + 8 <= 0xFFFF ->
  exists p stored,
    QUICPacket.build_long type connection_id packet_number version payload
      len retransmittable = Ok p
    /\ stores_checksummed p (firstn (Z.to_nat len) payload) stored
    /\ Z.of_nat (length stored) = 17 + len + 8.
Proof.
  intros Hsum Hlen Hfit.
  destruct (unprotected_packet_stored type connection_id packet_number
              version payload len retransmittable Hsum Hlen Hfit)
    as (p & stored & Hp & Hs & Hl & _).
  exists p, stored. repeat split; assumption.
Qed.

Lemma unprotected_packet_store_witness :
  exists p stored,
    QUICPacket.build_long (H := debug_headers) 2 0xAB 5 0xFF000005 [1; 2; 3]
      3 true = Ok p
    /\ stores_checksummed (H := debug_headers) p
         (firstn (Z.to_nat 3) [1; 2; 3]) stored
    /\ Z.of_nat (length stored) = 17 + 3 + 8.
Proof.
  apply (unprotected_packet_store (H := debug_headers) 2 0xAB 5 0xFF000005
           [1; 2; 3] 3 true).
  - reflexivity.
  - cbn [length]. lia.
  - lia.
Defined.

(** The fields of a long header parsed from the bytes a long header stores,
    followed by [rest]. *)
Lemma long_header_parsed_fields `{Headers} (f : QUICPacketHeaderFields)
    (type connection_id packet_number version : Z) (rest : bytes) :
  0 <= type < 128 ->
  let buf := ([0x80 + type]
                ++ QUICTypeUtil.write_uint_as_nbytes connection_id 8
                ++ QUICTypeUtil.write_uint_as_nbytes packet_number 4
                ++ QUICTypeUtil.write_uint_as_nbytes version 4) ++ rest in
  _buf f = Some buf ->
  QUICTypeUtil.hasLongHeader buf = Ok true
  /\ QUICPacketLongHeader.type f
     = Ok (if type <? QUICPacketType.UNINITIALIZED then type
           else QUICPacketType.UNINITIALIZED)
  /\ QUICPacketLongHeader.connection_id f = Ok (connection_id mod 2 ^ 64)
  /\ QUICPacketLongHeader.packet_number f = Ok (packet_number mod 2 ^ 32)
  /\ QUICPacketLongHeader.version f = Ok (version mod 2 ^ 32)
  /\ QUICPacketLongHeader.payload f = Ok rest.
Proof.
  intros Hr buf Hbuf.
  destruct (long_flag_byte type Hr) as (_ & Hhigh & Hlow).
  unfold QUICTypeUtil.hasLongHeader, QUICPacketLongHeader.type,
    QUICPacketLongHeader.connection_id, QUICPacketLongHeader.packet_number,
    QUICPacketLongHeader.version, QUICPacketLongHeader.payload,
    QUICTypeUtil.read_QUICConnectionId, QUICTypeUtil.read_QUICPacketNumber,
    QUICTypeUtil.read_QUICVersion, OFFSET_CONNECTION_ID, OFFSET_PACKET_NUMBER,
    OFFSET_VERSION, OFFSET_PAYLOAD.
  rewrite Hbuf. unfold buf.
  rewrite <- !app_assoc.
  rewrite read_field_1, read_field_9, read_field_13.
  rewrite pow2_bytes_8, pow2_bytes_4.
  cbn [app]. rewrite byte_at_0. cbn [bind]. rewrite Hhigh, Hlow.
  repeat split.
  destruct (type <? QUICPacketType.UNINITIALIZED); reflexivity.
Qed.

(** The bytes stored for a packet built with a long header and a type that
    is not payload-protected parse back, through [create], to a packet of
    the same type, connection id, version and size, whose packet number is
    the packet number stored modulo 2^32 (the same number when it is below
    2^32), whose payload is the payload stored, and whose checksum is
    valid. *)
Theorem stored_packet_parses_back `{Headers} (type : QUICPacketType.t)
    (connection_id : QUICConnectionId) (packet_number : QUICPacketNumber)
    (version : QUICVersion) (payload : bytes) (retransmittable : bool) :
  0 <= QUICPacketType_first <= 118 ->
  QUICPacketType.named type ->
  checksum_bytes type = 8 ->
  0 <= connection_id < 2 ^ 64 ->
  0 <= version < 2 ^ 32 ->
  17 + Z.of_nat (length payload) + 8 <= 0xFFFF ->
  exists p stored p',
    QUICPacket.build_long type connection_id packet_number version payload
      (Z.of_nat (length payload)) retransmittable = Ok p
    /\ QUICPacket.store p = Ok stored
    /\ QUICPacketFactory.create stored = Ok p'
    /\ QUICPacket.size p' = QUICPacket.size p
    /\ parses_back p' type connection_id (packet_number mod 2 ^ 32) version
         payload.
Proof.
  intros Hfirst Hnamed Hsum Hcid Hver Hfit.
  set (len := Z.of_nat (length payload)) in *.
  assert (Hr : 0 <= type < 128)
    by (unfold QUICPacketType.named, QUICPacketType.VERSION_NEGOTIATION,
          QUICPacketType.UNINITIALIZED in Hnamed; lia).
  destruct (unprotected_packet_stored type connection_id packet_number
              version payload len retransmittable Hsum ltac:(lia) Hfit)
    as (p & stored & Hp & (header & hash & Hhdr & Hhash & H8 & -> & Hst & _)
        & Hlen & Hh & Hsize).
  assert (Hall : firstn (Z.to_nat len) payload = payload)
    by (unfold len; rewrite Nat2Z.id; apply firstn_all).
  rewrite Hall in Hhash, Hst, Hlen. clear Hall.
  unfold QUICPacket.store_header in Hhdr.
  rewrite Hh, (store_long_built _ _ _ _ _ _ Hr) in Hhdr.
  apply Ok_inj in Hhdr. subst header.
  set (header := [0x80 + type]
                   ++ QUICTypeUtil.write_uint_as_nbytes connection_id 8
                   ++ QUICTypeUtil.write_uint_as_nbytes packet_number 4
                   ++ QUICTypeUtil.write_uint_as_nbytes version 4) in *.
  set (stored := header ++ payload ++ hash) in *.
  destruct (long_header_parsed_fields
              (match QUICPacketLongHeader.parsed stored with
               | LongHeader g => g | ShortHeader g _ => g end)
              type connection_id packet_number version (payload ++ hash) Hr
              ltac:(unfold stored, header; now rewrite <- !app_assoc))
    as (Plong & Pt & Pc & Pn & Pv & Pp).
  cbn [QUICPacketLongHeader.parsed] in Pt, Pc, Pn, Pv, Pp.
  replace (([128 + type]
              ++ QUICTypeUtil.write_uint_as_nbytes connection_id 8
              ++ QUICTypeUtil.write_uint_as_nbytes packet_number 4
              ++ QUICTypeUtil.write_uint_as_nbytes version 4)
             ++ payload ++ hash) with stored in *
    by (unfold stored, header; now rewrite <- !app_assoc).
  assert (Htype : (if type <? QUICPacketType.UNINITIALIZED then type
                   else QUICPacketType.UNINITIALIZED) = type).
  { unfold QUICPacketType.named in Hnamed.
    destruct (type <? QUICPacketType.UNINITIALIZED) eqn:E; [reflexivity|].
    apply Z.ltb_ge in E. lia. }
  match type of Pt with
  | ?lhs = _ =>
      assert (Pt' : lhs = Ok type)
        by (rewrite Pt; apply f_equal; exact Htype)
  end.
  clear Pt. rename Pt' into Pt.
  rewrite (Z.mod_small connection_id) in Pc by assumption.
  rewrite (Z.mod_small version) in Pv by assumption.
  assert (Hplain : QUICPacket.is_protected_type type = false).
  { rewrite checksum_bytes_protected in Hsum.
    destruct (QUICPacket.is_protected_type type);
      [discriminate Hsum | reflexivity]. }
  exists p, stored.
  unfold QUICPacketFactory.create, QUICPacket.from_block,
    QUICPacketHeader.load.
  rewrite Plong. cbn [bind].
  eexists. split; [exact Hp|]. split; [exact Hst|]. split; [reflexivity|].
  unfold parses_back, QUICPacket.size, QUICPacket.type,
    QUICPacket.connection_id, QUICPacket.packet_number, QUICPacket.version,
    QUICPacket.payload_size, QUICPacket.payload,
    QUICPacket.has_valid_fnv1a_hash, QUICPacket.type.
  cbn [QUICPacket._header QUICPacket._size QUICPacket._block
       QUICPacketLongHeader.parsed QUICPacketHeader.type
       QUICPacketHeader.connection_id QUICPacketHeader.packet_number
       QUICPacketHeader.version QUICPacketHeader.length
       QUICPacketHeader.payload QUICPacketLongHeader.length].
  unfold QUICPacket.size in Hsize. rewrite Hsize.
  rewrite Pt, Pc, Pn, Pv, Pp. unfold QUICPacketLongHeader.length.
  cbn [bind]. rewrite Hplain. cbn [negb]. fold len.
  unfold FNV1A_HASH_LEN, LONGHEADER_LENGTH, size_t, uint16, wrap.
  change (2 ^ 64) with 18446744073709551616.
  change (2 ^ 16) with 65536.
  rewrite Hlen.
  change (17 mod 65536) with 17.
  rewrite (Z.mod_small (17 + len + 8) 18446744073709551616) by lia.
  rewrite (Z.mod_small (17 + len + 8) 65536) by lia.
  replace (17 + len + 8 - 17) with (len + 8) by lia.
  rewrite (Z.mod_small (len + 8) 18446744073709551616) by lia.
  replace (len + 8 - 8) with len by lia.
  replace (17 + len + 8 - 8) with (17 + len) by lia.
  rewrite (Z.mod_small len 18446744073709551616) by lia.
  rewrite (Z.mod_small len 65536) by lia.
  rewrite (Z.mod_small (17 + len) 18446744073709551616) by lia.
  split; [reflexivity|].
  repeat split.
  - exists (payload ++ hash). split; [reflexivity | apply memcpy_prefix].
  - assert (Hbody : Z.of_nat (length (header ++ payload)) = 17 + len)
      by (unfold stored in Hlen; rewrite !length_app, H8 in Hlen;
          rewrite length_app; lia).
    rewrite <- Hbody.
    unfold stored. rewrite app_assoc.
    destruct (fnv1a_prefix (header ++ payload) hash)
      as (hash' & Hall & Hpre & _).
    rewrite Hhash in Hall. injection Hall as <-.
    rewrite Hpre. cbn [bind].
    rewrite Nat2Z.id, skipn_app, skipn_all, Nat.sub_diag. cbn [skipn app].
    change 8 with (Z.of_nat 8). rewrite <- H8, memcpy_all. cbn [bind].
    destruct (list_eq_dec Z.eq_dec hash hash) as [_|Hne];
      [reflexivity | contradiction].
Qed.

Lemma stored_packet_parses_back_witness :
  exists p stored p',
    QUICPacket.build_long (H := debug_headers) 2 0xAB 0x100000001 0xFF000005
      [1; 2; 3] (Z.of_nat (length [1; 2; 3])) true = Ok p
    /\ QUICPacket.store (H := debug_headers) p = Ok stored
    /\ QUICPacketFactory.create (H := debug_headers) stored = Ok p'
    /\ QUICPacket.size p' = QUICPacket.size p
    /\ parses_back (H := debug_headers) p' 2 0xAB (0x100000001 mod 2 ^ 32)
         0xFF000005 [1; 2; 3].
Proof.
  apply (stored_packet_parses_back (H := debug_headers) 2 0xAB 0x100000001
           0xFF000005 [1; 2; 3] true).
  - cbn. lia.
  - vm_compute. split; discriminate.
  - reflexivity.
  - lia.
  - lia.
  - cbn [length]. lia.
Defined.

Lemma build_long_packet `{Headers} (type : QUICPacketType.t)
    (connection_id : QUICConnectionId) (packet_number : QUICPacketNumber)
    (version : QUICVersion) (payload : bytes) (len : Z)
    (retransmittable : bool) :
  exists p,
    QUICPacket.build_long type connection_id packet_number version payload
      len retransmittable = Ok p
    /\ long_packet p type connection_id packet_number version payload
         retransmittable.
Proof.
  eexists. split; [reflexivity|]. repeat split.
Qed.

(** The two factory calls that build a long header always return a packet,
    numbered with the value the generator held before the call, which
    leaves the generator one higher: a server cleartext packet carries the
    version the factory holds and the retransmittable flag given; a client
    initial packet carries the version given and is retransmittable. *)
Theorem factory_long_header_packets `{Headers}
    (factory : QUICPacketFactory.t) (connection_id : QUICConnectionId)
    (version : QUICVersion) (payload : bytes) (len : Z)
    (retransmittable : bool) :
  (exists p,
     QUICPacketFactory.create_server_cleartext_packet factory connection_id
       payload len retransmittable = Ok (p, advanced factory)
     /\ long_packet p QUICPacketType.SERVER_CLEARTEXT connection_id
          (next_packet_number factory) (QUICPacketFactory._version factory)
          payload retransmittable)
  /\ (exists p,
        QUICPacketFactory.create_client_initial_packet factory connection_id
          version payload len = Ok (p, advanced factory)
        /\ long_packet p QUICPacketType.CLIENT_INITIAL connection_id
             (next_packet_number factory) version payload true).
Proof.
  unfold QUICPacketFactory.create_server_cleartext_packet,
    QUICPacketFactory.create_client_initial_packet, QUICPacketFactory.draw,
    QUICPacketNumberGenerator.next, advanced, next_packet_number.
  cbn [QUICPacketFactory._version].
  split.
  - destruct (build_long_packet QUICPacketType.SERVER_CLEARTEXT connection_id
                (QUICPacketNumberGenerator._current
                   (QUICPacketFactory._packet_number_generator factory))
                (QUICPacketFactory._version factory) payload len
                retransmittable) as (p & Hp & Hlong).
    exists p. rewrite Hp. split; [reflexivity | exact Hlong].
  - destruct (build_long_packet QUICPacketType.CLIENT_INITIAL connection_id
                (QUICPacketNumberGenerator._current
                   (QUICPacketFactory._packet_number_generator factory))
                version payload len true) as (p & Hp & Hlong).
    exists p. rewrite Hp. split; [reflexivity | exact Hlong].
Qed.

(** With a cipher bound, [create_server_protected_packet] always returns,
    with a packet or with none, and always leaves the generator one higher:
    a call whose encryption fails uses up a packet number all the same. A
    packet returned is a 1-RTT packet of key phase 0 with the connection id
    given and the number the generator held before the call. *)
Theorem server_protected_packet_draws `{Headers}
    (factory : QUICPacketFactory.t) (crypto : QUICCrypto)
    (connection_id : QUICConnectionId) (payload : bytes) (len : Z)
    (retransmittable : bool) :
  QUICPacketFactory._crypto factory = Some crypto ->
  exists outcome,
    QUICPacketFactory.create_server_protected_packet factory connection_id
      payload len retransmittable = Ok (outcome, advanced factory)
    /\ match outcome with
       | Some p =>
           QUICPacket.type p
           = Ok QUICPacketType.ONE_RTT_PROTECTED_KEY_PHASE_0
           /\ QUICPacket.key_phase p = Ok PHASE_0
           /\ QUICPacket.connection_id p = Ok connection_id
           /\ QUICPacket.packet_number p = Ok (next_packet_number factory)
           /\ QUICPacket.is_retransmittable p = retransmittable
           /\ QUICPacket._protected_payload p <> None
       | None => True
       end.
Proof.
  intros Hcrypto.
  destruct factory as [held bound generator].
  cbn [QUICPacketFactory._crypto] in Hcrypto. subst bound.
  unfold advanced, next_packet_number.
  cbn [QUICPacketFactory._version QUICPacketFactory._crypto
       QUICPacketFactory._packet_number_generator].
  set (pn := QUICPacketNumberGenerator._current generator).
  set (type := QUICPacketType.ONE_RTT_PROTECTED_KEY_PHASE_0).
  assert (Htype : short_header_type type) by (now left).
  destruct (key_phase_of_short_header_type type Htype)
    as (Hk & [(Hphase & _) | (_ & Habs)]);
    [|unfold type, QUICPacketType.ONE_RTT_PROTECTED_KEY_PHASE_0,
        QUICPacketType.ONE_RTT_PROTECTED_KEY_PHASE_1 in Habs; lia].
  set (f := {| _buf := _buf QUICPacketHeaderFields_default;
               _payload := payload;
               _type := type;
               _key_phase := key_phase_for type;
               _connection_id := connection_id;
               _packet_number := pn;
               _version := _version QUICPacketHeaderFields_default;
               _payload_len := len;
               _has_key_phase := true;
               _has_connection_id := true;
               _has_version := _has_version QUICPacketHeaderFields_default |}).
  set (h := ShortHeader f (QUICPacketShortHeader.packet_number_type_of pn)).
  destruct (built_short_header_accessors type f Htype eq_refl eq_refl)
    as (Bt & Bl & Bk & Bc & Bn & Bp).
  cbn [f _packet_number _has_connection_id _payload _connection_id]
    in Bt, Bl, Bk, Bc, Bn, Bp.
  fold f h in Bt, Bl, Bk, Bc, Bn, Bp.
  pose proof (packet_number_width_selector pn) as Hsel.
  unfold QUICPacketFactory.create_server_protected_packet,
    QUICPacketFactory.draw, QUICPacketNumberGenerator.next.
  cbn [QUICPacketFactory._version QUICPacketFactory._crypto
       QUICPacketFactory._packet_number_generator].
  fold pn type.
  unfold QUICPacket.build_short_with_connection_id,
    QUICPacketHeader.build_short_with_connection_id,
    QUICPacketShortHeader.built_with_connection_id.
  rewrite Hk. cbn [bind]. fold f h.
  unfold QUICPacket.from_header. rewrite Bl. cbn [bind].
  unfold QUICPacket.store_header, QUICPacket.payload,
    QUICPacket.payload_size, QUICPacket.packet_number, QUICPacket.key_phase,
    QUICPacket.type.
  cbn [QUICPacket._header QUICPacketFactory._crypto].
  cbn [h QUICPacketHeader.store].
  rewrite (store_short_header_any_phase f _ _ Hsel). cbn [bind].
  fold h. rewrite Bp, Bt, Bl, Bn, Bk. cbn [bind].
  destruct (negb (QUICPacket.is_protected_type type)); cbn [bind].
  all: match goal with
       | |- context [encrypt ?c ?a1 ?a2 ?a3 ?a4 ?a5 ?a6 ?a7] =>
           destruct (encrypt c a1 a2 a3 a4 a5 a6 a7) as [cipher_txt|]
       end.
  all: eexists; split; [reflexivity|]; try exact I.
  all: unfold QUICPacket.type, QUICPacket.key_phase, QUICPacket.connection_id,
         QUICPacket.packet_number, QUICPacket.is_retransmittable;
       cbn [QUICPacket.set_protected_payload QUICPacket._header
            QUICPacket._is_retransmittable QUICPacket._protected_payload];
       rewrite Bt, Bk, Bc, Bn, Hphase; repeat split; discriminate.
Qed.

Lemma server_protected_packet_draws_witness :
  exists outcome,
    QUICPacketFactory.create_server_protected_packet (H := debug_headers)
      (factory_with (cipher_stub None)) 0xAB [1; 2; 3] 3 true
    = Ok (outcome, advanced (factory_with (cipher_stub None)))
    /\ match outcome with
       | Some p =>
           QUICPacket.type (H := debug_headers) p = Ok 7
           /\ QUICPacket.key_phase p = Ok PHASE_0
           /\ QUICPacket.connection_id p = Ok 0xAB
           /\ QUICPacket.packet_number (H := debug_headers) p
              = Ok (next_packet_number (factory_with (cipher_stub None)))
           /\ QUICPacket.is_retransmittable p = true
           /\ QUICPacket._protected_payload p <> None
       | None => True
       end.
Proof.
  exact (server_protected_packet_draws (H := debug_headers)
           (factory_with (cipher_stub None)) (cipher_stub None) 0xAB
           [1; 2; 3] 3 true eq_refl).
Defined.

(** The version of a factory is set once: on a factory whose version is
    still the unset 0, [set_version] records the version given; setting a
    version again, after one that is not 0, fails the assertion in a debug
    build and replaces the version in a release build. Neither call touches
    the cipher or the generator. *)
Theorem set_version_once `{Headers} (factory : QUICPacketFactory.t)
    (first_version second_version : QUICVersion) :
  QUICPacketFactory._version factory = 0 ->
  first_version <> 0 ->
  exists factory',
    QUICPacketFactory.set_version factory first_version = Ok factory'
    /\ QUICPacketFactory._version factory' = first_version
    /\ QUICPacketFactory._crypto factory' = QUICPacketFactory._crypto factory
    /\ QUICPacketFactory._packet_number_generator factory'
       = QUICPacketFactory._packet_number_generator factory
    /\ QUICPacketFactory.set_version factory' second_version
       = if DEBUG then Fault AssertionFailed
         else Ok {| QUICPacketFactory._version := second_version;
                    QUICPacketFactory._crypto :=
                      QUICPacketFactory._crypto factory;
                    QUICPacketFactory._packet_number_generator :=
                      QUICPacketFactory._packet_number_generator factory |}.
Proof.
  intros Hunset Hfirst.
  unfold QUICPacketFactory.set_version. rewrite Hunset.
  cbn [Z.eqb]. rewrite ink_assert_true. cbn [bind].
  eexists. split; [reflexivity|].
  cbn [QUICPacketFactory._version QUICPacketFactory._crypto
       QUICPacketFactory._packet_number_generator].
  repeat split.
  apply Z.eqb_neq in Hfirst. rewrite Hfirst.
  unfold ink_assert. destruct DEBUG; reflexivity.
Qed.

Lemma set_version_once_witness :
  exists factory',
    QUICPacketFactory.set_version (H := debug_headers)
      QUICPacketFactory.fresh 0xFF000005 = Ok factory'
    /\ QUICPacketFactory._version factory' = 0xFF000005
    /\ QUICPacketFactory._crypto factory'
       = QUICPacketFactory._crypto QUICPacketFactory.fresh
    /\ QUICPacketFactory._packet_number_generator factory'
       = QUICPacketFactory._packet_number_generator QUICPacketFactory.fresh
    /\ QUICPacketFactory.set_version (H := debug_headers) factory' 0xFF000006
       = Fault AssertionFailed.
Proof.
  apply (set_version_once (H := debug_headers) QUICPacketFactory.fresh
           0xFF000005 0xFF000006).
  - reflexivity.
  - discriminate.
Defined.

(** Storing a packet of a payload-protected type before any protected
    payload was set: the assertion fails in a debug build; in a release
    build the header alone is written, with no payload after it. *)
Theorem protected_packet_store_before_set `{Headers} (p : QUICPacket.t)
    (type : QUICPacketType.t) (header : bytes) :
  QUICPacket.type p = Ok type ->
  QUICPacket.is_protected_type type = true ->
  QUICPacket.store_header p = Ok header ->
  QUICPacket._protected_payload p = None ->
  QUICPacket._protected_payload_size p = 0 ->
  QUICPacket.store p
  = if DEBUG then Fault AssertionFailed else Ok header.
Proof.
  intros Htype Hprot Hheader Hnone Hzero.
  unfold QUICPacket.store.
  unfold QUICPacket.store_header in Hheader.
  rewrite Hheader, Hnone, Hzero. cbn [bind].
  unfold ink_assert, memcpy.
  destruct DEBUG; cbn [andb negb].
  - destruct (_ <=? _); cbn [negb bind]; [|reflexivity].
    rewrite Htype. cbn [bind]. rewrite Hprot. reflexivity.
  - cbn [bind]. rewrite Htype. cbn [bind]. rewrite Hprot.
    cbn [negb bind length Z.of_nat Z.leb Z.compare Z.to_nat firstn].
    now rewrite app_nil_r.
Qed.

Lemma protected_packet_store_before_set_witness :
  exists p header,
    QUICPacket.build_short_with_connection_id (H := release_headers) 7 0xAB
      5 [1; 2; 3] 3 true = Ok p
    /\ QUICPacket.store_header p = Ok header
    /\ QUICPacket.store (H := release_headers) p = Ok header.
Proof.
  eexists. eexists.
  split; [reflexivity|]. split; [reflexivity|].
  apply (protected_packet_store_before_set (H := release_headers) _ 7);
    reflexivity.
Defined.

Lemma be_fold_bounds (field : bytes) (acc : Z) :
  all_bytes field ->
  fold_left QUICTypeUtil.be_step field acc
  = acc * 2 ^ (8 * Z.of_nat (length field))
    + fold_left QUICTypeUtil.be_step field 0
  /\ 0 <= fold_left QUICTypeUtil.be_step field 0
     < 2 ^ (8 * Z.of_nat (length field)).
Proof.
  intros Hall. revert acc.
  induction Hall as [|b t Hb Ht IH]; intros acc.
  - cbn [fold_left length]. change (2 ^ (8 * Z.of_nat 0)) with 1. lia.
  - cbn [fold_left length].
    destruct (IH (QUICTypeUtil.be_step acc b)) as (E1 & _).
    destruct (IH (QUICTypeUtil.be_step 0 b)) as (E2 & Hr).
    rewrite E1, E2.
    change (QUICTypeUtil.be_step acc b) with (acc * 256 + b).
    change (QUICTypeUtil.be_step 0 b) with (0 * 256 + b).
    replace (8 * Z.of_nat (S (length t)))
      with (8 * Z.of_nat (length t) + 8) by lia.
    rewrite Z.pow_add_r by lia. change (2 ^ 8) with 256.
    set (m := 2 ^ (8 * Z.of_nat (length t))) in *.
    assert (Hm : 0 < m) by (apply Z.pow_pos_nonneg; lia).
    split; [ring|].
    assert (Hbm : 0 <= b * m <= 255 * m)
      by (split; [apply Z.mul_nonneg_nonneg | apply Z.mul_le_mono_nonneg_r];
          lia).
    replace ((0 * 256 + b) * m) with (b * m) by ring.
    lia.
Qed.

(** Writing back the value read from a field of bytes gives the field. *)
Lemma write_read_bytes (field : bytes) (acc : Z) :
  all_bytes field ->
  QUICTypeUtil.write_uint_as_nbytes
    (fold_left QUICTypeUtil.be_step field acc) (length field)
  = field.
Proof.
  intros Hall. revert acc.
  induction Hall as [|b t Hb Ht IH]; intros acc; [reflexivity|].
  cbn [fold_left length QUICTypeUtil.write_uint_as_nbytes].
  rewrite IH, write_uint_as_nbytes_byte. f_equal.
  destruct (be_fold_bounds t (QUICTypeUtil.be_step acc b) Ht) as (E & Hr).
  rewrite E. set (m := 2 ^ (8 * Z.of_nat (length t))) in *.
  assert (Hm : 0 < m) by (apply Z.pow_pos_nonneg; lia).
  rewrite Z.div_add_l by lia.
  rewrite (Z.div_small _ m) by lia.
  change (QUICTypeUtil.be_step acc b) with (acc * 256 + b).
  rewrite Z.add_0_r, Z.add_comm, Z.mod_add by lia.
  apply Z.mod_small. exact Hb.
Qed.

Lemma long_flag_byte_restored (b0 : Z) :
  0x80 <= b0 < 0x100 ->
  uint8 (0x80 + uint8 (Z.land b0 0x7F)) = b0
  /\ (Z.land b0 0x80 =? 0) = false.
Proof.
  intros Hr.
  pose (P := fun b => (b <? 0x80)
                      || ((uint8 (0x80 + uint8 (Z.land b 0x7F)) =? b)
                          && negb (Z.land b 0x80 =? 0))).
  assert (HP : P b0 = true)
    by (apply (Z_range_forallb P 256); [vm_compute; reflexivity | lia]).
  unfold P in HP.
  replace (b0 <? 0x80) with false in HP by (symmetry; apply Z.ltb_ge; lia).
  cbn [orb] in HP. apply andb_prop in HP as [H1 H2].
  apply Z.eqb_eq in H1. apply negb_true_iff in H2. auto.
Qed.

(** A long header received with a type below UNINITIALIZED is stored again
    as it was received: the header built from the type, connection id,
    packet number and version that the parsed header reports stores the 17
    bytes it was parsed from. *)
Theorem long_header_restored `{Headers} (b0 : Z)
    (id_bytes number_bytes version_bytes rest payload : bytes) (len : Z) :
  0x80 <= b0 < 0x100 ->
  Z.land b0 0x7F < QUICPacketType.UNINITIALIZED ->
  all_bytes id_bytes -> length id_bytes = 8%nat ->
  all_bytes number_bytes -> length number_bytes = 4%nat ->
  all_bytes version_bytes -> length version_bytes = 4%nat ->
  let wire := [b0] ++ id_bytes ++ number_bytes ++ version_bytes in
  exists h type connection_id packet_number version,
    QUICPacketHeader.load (wire ++ rest) (Z.of_nat (length (wire ++ rest)))
    = Ok h
    /\ QUICPacketHeader.type h = Ok type
    /\ QUICPacketHeader.connection_id h = Ok connection_id
    /\ QUICPacketHeader.packet_number h = Ok packet_number
    /\ QUICPacketHeader.version h = Ok version
    /\ QUICPacketHeader.store
         (QUICPacketLongHeader.built type connection_id packet_number
            version payload len)
       = Ok wire.
Proof.
  intros Hb0 Htype Hid Lid Hnum Lnum Hver Lver wire.
  destruct (long_flag_byte_restored b0 Hb0) as (Hflag & Hhigh).
  exists (QUICPacketLongHeader.parsed (wire ++ rest)),
    (Z.land b0 0x7F),
    (fold_left QUICTypeUtil.be_step id_bytes 0),
    (fold_left QUICTypeUtil.be_step number_bytes 0),
    (fold_left QUICTypeUtil.be_step version_bytes 0).
  split.
  { unfold QUICPacketHeader.load, QUICTypeUtil.hasLongHeader, wire.
    cbn [app]. rewrite byte_at_0. cbn [bind]. rewrite Hhigh. reflexivity. }
  cbn [QUICPacketHeader.type QUICPacketHeader.connection_id
       QUICPacketHeader.packet_number QUICPacketHeader.version
       QUICPacketLongHeader.parsed QUICPacketHeader.store
       QUICPacketLongHeader.built].
  unfold QUICPacketLongHeader.type, QUICPacketLongHeader.connection_id,
    QUICPacketLongHeader.packet_number, QUICPacketLongHeader.version,
    QUICPacketLongHeader.store,
    QUICTypeUtil.read_QUICConnectionId, QUICTypeUtil.read_QUICPacketNumber,
    QUICTypeUtil.read_QUICVersion, QUICTypeUtil.write_QUICConnectionId,
    QUICTypeUtil.write_QUICPacketNumber, QUICTypeUtil.write_QUICVersion.
  cbn [_buf _type _connection_id _packet_number _version].
  unfold wire. rewrite <- !app_assoc.
  repeat split.
  - cbn [app]. rewrite byte_at_0. cbn [bind].
    apply Z.ltb_lt in Htype. rewrite Htype. reflexivity.
  - rewrite <- Lid. apply (read_nbytes_as_uint_at [b0]).
  - rewrite <- Lnum.
    rewrite (app_assoc [b0]).
    replace OFFSET_PACKET_NUMBER with (length ([b0] ++ id_bytes))
      by (rewrite length_app, Lid; reflexivity).
    apply read_nbytes_as_uint_at.
  - rewrite <- Lver.
    rewrite (app_assoc [b0]), (app_assoc (_ ++ _)).
    replace OFFSET_VERSION
      with (length (([b0] ++ id_bytes) ++ number_bytes))
      by (rewrite !length_app, Lid, Lnum; reflexivity).
    apply read_nbytes_as_uint_at.
  - rewrite Hflag.
    rewrite <- Lid at 1. rewrite <- Lnum at 1. rewrite <- Lver at 1.
    rewrite !write_read_bytes by assumption. reflexivity.
Qed.

Lemma long_header_restored_witness :
  exists h type connection_id packet_number version,
    QUICPacketHeader.load (H := debug_headers)
      (([0x82] ++ [1; 2; 3; 4; 5; 6; 7; 8] ++ [0; 0; 1; 0]
          ++ [0xFF; 0; 0; 5]) ++ [9; 9])
      (Z.of_nat (length (([0x82] ++ [1; 2; 3; 4; 5; 6; 7; 8] ++ [0; 0; 1; 0]
                            ++ [0xFF; 0; 0; 5]) ++ [9; 9])))
    = Ok h
    /\ QUICPacketHeader.type (H := debug_headers) h = Ok type
    /\ QUICPacketHeader.connection_id h = Ok connection_id
    /\ QUICPacketHeader.packet_number (H := debug_headers) h
       = Ok packet_number
    /\ QUICPacketHeader.version h = Ok version
    /\ QUICPacketHeader.store
         (QUICPacketLongHeader.built (H := debug_headers) type connection_id
            packet_number version [] 0)
       = Ok ([0x82] ++ [1; 2; 3; 4; 5; 6; 7; 8] ++ [0; 0; 1; 0]
               ++ [0xFF; 0; 0; 5]).
Proof.
  apply (long_header_restored (H := debug_headers) 0x82
           [1; 2; 3; 4; 5; 6; 7; 8] [0; 0; 1; 0] [0xFF; 0; 0; 5] [9; 9] [] 0).
  - lia.
  - vm_compute. reflexivity.
  - unfold all_bytes. repeat constructor; lia.
  - reflexivity.
  - unfold all_bytes. repeat constructor; lia.
  - reflexivity.
  - unfold all_bytes. repeat constructor; lia.
  - reflexivity.
Defined.

(** A short header is for the two 1-RTT types only. Built with any other
    type, both building constructors fail their assertion in a debug build;
    in a release build they return a header with no key phase chosen, whose
    type reads UNINITIALIZED whatever type was given. *)
Theorem short_header_other_types `{Headers} (type : QUICPacketType.t)
    (connection_id : QUICConnectionId) (packet_number : QUICPacketNumber)
    (payload : bytes) (len : Z) :
  ~ short_header_type type ->
  let outcome (build : result QUICPacketHeader) :=
    if DEBUG then build = Fault AssertionFailed
    else exists h,
           build = Ok h
           /\ QUICPacketHeader.key_phase h = Ok PHASE_UNINITIALIZED
           /\ QUICPacketHeader.type h = Ok QUICPacketType.UNINITIALIZED in
  outcome (QUICPacketHeader.build_short type packet_number payload len)
  /\ outcome (QUICPacketHeader.build_short_with_connection_id type
                connection_id packet_number payload len).
Proof.
  intros Hother outcome. unfold outcome.
  unfold QUICPacketHeader.build_short,
    QUICPacketHeader.build_short_with_connection_id,
    QUICPacketShortHeader.built,
    QUICPacketShortHeader.built_with_connection_id,
    QUICPacketShortHeader.key_phase_of_type.
  destruct (type =? QUICPacketType.ONE_RTT_PROTECTED_KEY_PHASE_0) eqn:E0;
    [apply Z.eqb_eq in E0; exfalso; apply Hother; now left|].
  destruct (type =? QUICPacketType.ONE_RTT_PROTECTED_KEY_PHASE_1) eqn:E1;
    [apply Z.eqb_eq in E1; exfalso; apply Hother; now right|].
  unfold ink_assert.
  destruct DEBUG eqn:Hdebug; cbn [andb negb bind].
  - split; reflexivity.
  - split; eexists; (split; [reflexivity|]);
      cbn [QUICPacketHeader.key_phase QUICPacketHeader.type];
      unfold QUICPacketShortHeader.type, QUICPacketShortHeader.key_phase,
        ink_assert;
      cbn [_buf _key_phase QUICPacketHeaderFields_default bind];
      rewrite Hdebug; split; reflexivity.
Qed.

Lemma short_header_other_types_witness :
  QUICPacketHeader.build_short (H := debug_headers) 2 5 [] 0
  = Fault AssertionFailed
  /\ QUICPacketHeader.build_short_with_connection_id (H := debug_headers) 2
       0xAB 5 [] 0
     = Fault AssertionFailed.
Proof.
  apply (short_header_other_types (H := debug_headers) 2 0xAB 5 [] 0).
  intros [Habs | Habs]; discriminate Habs.
Defined.

(** ** The model on concrete packets *)

Example store_long_client_initial :
  QUICPacketHeader.store
    (QUICPacketLongHeader.built (H := release_headers)
       (QUICPacketType.CLIENT_INITIAL (H := release_headers))
       0x0102030405060708 0x12345678 0xFF000005 [] 0)
  = Ok [0x82; 1; 2; 3; 4; 5; 6; 7; 8; 0x12; 0x34; 0x56; 0x78; 0xFF; 0; 0; 5].
Proof. reflexivity. Qed.

Example store_short_256 :
  bind (QUICPacketHeader.build_short (H := release_headers) 8 0x100 [] 0)
    QUICPacketHeader.store
  = Ok [0x22; 1; 0].
Proof. reflexivity. Qed.

